(** * Asteroid-Impact-Simulator: the backend of [backend/main.py]

    A shallow embedding of the impact calculator ([simulate_impact]), the
    location resolver ([get_impact_country]), the advisory generator
    ([get_llm_suggestions]), the report handler ([generate_report]) and the
    catalog proxy ([get_asteroids]).

    Numbers.  Python's [float] is IEEE 754 binary64, and is modelled by the
    primitive floats of the Standard Library: [*], [/] and [-] round to
    nearest-even, overflow silently to an infinity and underflow to zero, as
    Python's do.  What Python adds on top is kept: [/] raises
    [ZeroDivisionError] on a zero divisor, and [**] is CPython's
    [float_pow], with its special cases, its [OverflowError] when the power
    leaves the binary64 range, and its way out of the floats on a negative
    base with a fractional exponent.  C's [pow], which [float_pow] calls for
    the ordinary case, is a parameter of the model ([Libm]).

    The outcome of [simulate_impact] is the one the framework has after
    validating the returned dict against the response model.  Rendering the
    validated body as JSON is outside the model: what becomes of an infinity
    or a NaN there is the framework's business, not the handler's.

    Effects.  The two upstream clients (Nominatim, Gemini) are parameters of
    the model; a computation returns its outcome together with the trace of
    the upstream calls and console writes it made. *)

From Stdlib Require Import Floats List String Ascii ZArith Bool.
From Stdlib Require Import DecimalString Lia.
Import ListNotations.

Set Warnings "-inexact-float".

Local Open Scope string_scope.
Local Open Scope float_scope.

(** ** Outcomes of Python code *)

Inductive PyError : Type :=
| KeyError (key : string)
| TypeError (msg : string)
| ZeroDivisionError (msg : string)
| OverflowError (msg : string)
| ResponseValidationError
| UpstreamError (msg : string).

Inductive PyResult (A : Type) : Type :=
| Ok (a : A)
| Raise (e : PyError).

Arguments Ok {A} a.
Arguments Raise {A} e.

Definition bind {A B : Type} (c : PyResult A) (k : A -> PyResult B) : PyResult B :=
  match c with
  | Ok a => k a
  | Raise e => Raise e
  end.

Notation "x <- c ;; k" := (bind c (fun x => k))
  (at level 61, c at next level, right associativity).

(** [str(e)] for the exceptions of the model. *)
Definition exc_str (e : PyError) : string :=
  match e with
  | KeyError k => ("'" ++ k ++ "'")%string
  | TypeError m => m
  | ZeroDivisionError m => m
  | OverflowError m => m
  | ResponseValidationError => "response validation error"%string
  | UpstreamError m => m
  end.

(** ** Python's float operators that can fail *)

(** [x / y] *)
Definition py_div (x y : float) : PyResult float :=
  if y =? 0 then Raise (ZeroDivisionError "float division by zero")
  else Ok (x / y).

(** C's [pow], of the libm the interpreter is linked against. *)
Record Libm : Type := { libm_pow : float -> float -> float }.

(** [x == floor(x)] *)
Definition float_is_integer (x : float) : bool :=
  match Prim2SF x with
  | S754_nan => false
  | S754_infinity _ => true
  | S754_zero _ => true
  | S754_finite _ m e => (0 <=? e)%Z || (Zpos m mod 2 ^ (- e) =? 0)%Z
  end.

(** [DOUBLE_IS_ODD_INTEGER(x)], that is [fmod(fabs(x), 2.0) == 1.0] *)
Definition float_is_odd_integer (x : float) : bool :=
  match Prim2SF x with
  | S754_finite _ m e =>
      if (0 <? e)%Z then false
      else (Zpos m mod 2 ^ (- e) =? 0)%Z && Z.odd (Zpos m / 2 ^ (- e))
  | _ => false
  end.

(** [copysign(x, y)] *)
Definition copysign (x y : float) : float :=
  if Bool.eqb (get_sign x) (get_sign y) then x else - x.

Definition range_error : PyError :=
  OverflowError "(34, 'Numerical result out of range')".

(** The end of [float_pow]: [iv] is positive, finite and not zero, [iw] is
    finite and not zero, and the platform's [pow] steps in.  A result that
    is an infinity is a range error; one that underflowed to zero is
    returned.  ([errno] is read as glibc sets it: [ERANGE] comes with an
    infinity or a zero only.) *)
Definition platform_pow (lm : Libm) (iv iw : float) (negate_result : bool)
  : PyResult float :=
  if iv =? 1 then Ok (if negate_result then -1 else 1)
  else
    let ix := libm_pow lm iv iw in
    if is_infinity ix then Raise range_error
    else Ok (if negate_result then - ix else ix).

(** CPython's [float_pow] where the power is a float: every case but the
    negative base with a fractional exponent. *)
Definition float_pow (lm : Libm) (iv iw : float) : PyResult float :=
  if iw =? 0 then Ok 1
  else if is_nan iv then Ok iv
  else if is_nan iw then Ok (if iv =? 1 then 1 else iw)
  else if is_infinity iw then
    if abs iv =? 1 then Ok 1
    else if Bool.eqb (0 <? iw) (1 <? abs iv) then Ok (abs iw)
    else Ok 0
  else if is_infinity iv then
    let iw_is_odd := float_is_odd_integer iw in
    if 0 <? iw then Ok (if iw_is_odd then iv else abs iv)
    else Ok (if iw_is_odd then copysign 0 iv else 0)
  else if iv =? 0 then
    let iw_is_odd := float_is_odd_integer iw in
    if iw <? 0
    then Raise (ZeroDivisionError "0.0 cannot be raised to a negative power")
    else Ok (if iw_is_odd then iv else 0)
  else if iv <? 0 then platform_pow lm (- iv) iw (float_is_odd_integer iw)
  else platform_pow lm iv iw false.

(** The numbers a float power can be. The value of a complex number is not
    kept: the handler only multiplies it by floats and returns it. *)
Inductive PyNumber : Type :=
| PyFloat (x : float)
| PyComplex.

(** The case in which [float_pow] hands over to the complex power: a
    negative finite base and a finite exponent that is not whole. *)
Definition goes_complex (iv iw : float) : bool :=
  is_finite iv && (iv <? 0) && is_finite iw && negb (float_is_integer iw).

(** [v ** w] for two floats. *)
Definition py_pow (lm : Libm) (iv iw : float) : PyResult PyNumber :=
  if goes_complex iv iw then
    if is_infinity (libm_pow lm (abs iv) iw)
    then Raise (OverflowError "complex exponentiation")
    else Ok PyComplex
  else
    x <- float_pow lm iv iw ;;
    Ok (PyFloat x).

(** [float(n)] for an [int] n *)
Definition float_of_int (n : Z) : float :=
  SF2Prim (binary_normalize prec emax n 0 false).

(** [v ** n] for a float [v] and an [int] [n]: the exponent is whole, the
    power is a float. *)
Definition py_pow_int (lm : Libm) (v : float) (n : Z) : PyResult float :=
  float_pow lm v (float_of_int n).

(** [x * y] for a number and a float, in either order. *)
Definition py_mul (x : PyNumber) (y : float) : PyNumber :=
  match x with
  | PyFloat a => PyFloat (a * y)
  | PyComplex => PyComplex
  end.

Definition py_rmul (x : float) (y : PyNumber) : PyNumber :=
  match y with
  | PyFloat b => PyFloat (x * b)
  | PyComplex => PyComplex
  end.

(** [np.pi] *)
Definition np_pi : float := 3.141592653589793.

(** ** Pydantic models *)

Record AsteroidParams : Type := {
  name : option string;
  radius : float;
  density : float;
  speed : float;
  angle : float
}.

Record SimulationResult : Type := {
  mass_kg : float;
  kinetic_energy_joules : float;
  impact_energy_joules : float;
  crater_diameter_meters : float;
  shockwave_radius_meters : float;
  energy_equivalent_kt_tnt : float
}.

(** A [float] field of a response model: a complex number is refused. *)
Definition validate_float (x : PyNumber) : PyResult float :=
  match x with
  | PyFloat a => Ok a
  | PyComplex => Raise ResponseValidationError
  end.

(** ** POST /api/simulate *)

Definition simulate_impact (lm : Libm) (asteroid : AsteroidParams)
  : PyResult SimulationResult :=
  four_thirds <- py_div 4 3 ;;
  radius3 <- py_pow_int lm (radius asteroid) 3 ;;
  let mass := four_thirds * np_pi * radius3 * density asteroid in
  speed2 <- py_pow_int lm (speed asteroid) 2 ;;
  let kinetic_energy := 0.5 * mass * speed2 in
  let energy_lost_to_atmosphere := 0.5 in
  let impact_energy := kinetic_energy * (1 - energy_lost_to_atmosphere) in
  per_weight <- py_div impact_energy (9.8 * density asteroid) ;;
  crater_exp <- py_div 1 3.4 ;;
  crater_pow <- py_pow lm per_weight crater_exp ;;
  let crater_diameter := py_mul (py_rmul 0.00016 crater_pow) 1000 in
  per_tera <- py_div impact_energy 1e12 ;;
  third <- py_div 1 3 ;;
  shock_pow <- py_pow lm per_tera third ;;
  let shockwave_radius := py_mul shock_pow 1000 in
  kt_tnt <- py_div impact_energy 4.184e12 ;;
  (* response_model=SimulationResult *)
  crater_diameter <- validate_float crater_diameter ;;
  shockwave_radius <- validate_float shockwave_radius ;;
  Ok {| mass_kg := mass;
        kinetic_energy_joules := kinetic_energy;
        impact_energy_joules := impact_energy;
        crater_diameter_meters := crater_diameter;
        shockwave_radius_meters := shockwave_radius;
        energy_equivalent_kt_tnt := kt_tnt |}.
(** ** Upstream data: the JSON of a geocoder answer *)

#[warnings="-register-all"]
Inductive PyVal : Type :=
| VNone
| VBool (b : bool)
| VInt (z : Z)
| VFloat (x : float)
| VStr (s : string)
| VList (l : list PyVal)
| VDict (d : list (string * PyVal)).

(** A [dict] with [str] keys, as an association list read from the front. *)
Definition dict (V : Type) : Type := list (string * V).

Fixpoint dict_get {V : Type} (d : dict V) (k : string) : option V :=
  match d with
  | [] => None
  | (k', v) :: d' => if String.eqb k k' then Some v else dict_get d' k
  end.

(** [d.get(k, default)] *)
Definition dict_get_default {V : Type} (d : dict V) (k : string) (default : V) : V :=
  match dict_get d k with
  | Some v => v
  | None => default
  end.

(** [d[k]] *)
Definition dict_getitem {V : Type} (d : dict V) (k : string) : PyResult V :=
  match dict_get d k with
  | Some v => Ok v
  | None => Raise (KeyError k)
  end.

(** [needle in hay] on two strings. *)
Fixpoint str_contains (needle hay : string) : bool :=
  String.prefix needle hay ||
  match hay with
  | EmptyString => false
  | String _ hay' => str_contains needle hay'
  end.

Definition is_str (k : string) (v : PyVal) : bool :=
  match v with
  | VStr s => String.eqb s k
  | _ => false
  end.

(** [k in v] for a [str] k. *)
Definition py_contains (k : string) (v : PyVal) : PyResult bool :=
  match v with
  | VDict d => Ok (match dict_get d k with Some _ => true | None => false end)
  | VStr s => Ok (str_contains k s)
  | VList l => Ok (existsb (is_str k) l)
  | VNone => Raise (TypeError "argument of type 'NoneType' is not iterable")
  | VBool _ => Raise (TypeError "argument of type 'bool' is not iterable")
  | VInt _ => Raise (TypeError "argument of type 'int' is not iterable")
  | VFloat _ => Raise (TypeError "argument of type 'float' is not iterable")
  end.

(** [v[k]] for a [str] k. *)
Definition py_getitem (v : PyVal) (k : string) : PyResult PyVal :=
  match v with
  | VDict d => dict_getitem d k
  | VStr _ => Raise (TypeError "string indices must be integers")
  | VList _ => Raise (TypeError "list indices must be integers or slices, not str")
  | VNone => Raise (TypeError "'NoneType' object is not subscriptable")
  | VBool _ => Raise (TypeError "'bool' object is not subscriptable")
  | VInt _ => Raise (TypeError "'int' object is not subscriptable")
  | VFloat _ => Raise (TypeError "'float' object is not subscriptable")
  end.

(** geopy's [Location]: only its [raw] answer is read. *)
Record Location : Type := { raw : dict PyVal }.

Record GenerativeModel : Type := {
  api_key : string;
  model_name : string
}.

(** The answer of [generate_content]; reading [.text] may itself raise. *)
Record GenerateContentResponse : Type := { text : PyResult string }.

(** ** The process environment, the upstream clients and the formatting
    builtins the service runs against *)

Record Runtime : Type := {
  (** [os.getenv("GEMINI_API_KEY")] *)
  GEMINI_API_KEY : option string;
  (** [geolocator.reverse((lat, lon), exactly_one=True, language='en')] *)
  geolocator_reverse : float -> float -> PyResult (option Location);
  (** [model.generate_content(prompt)] *)
  generate_content : GenerativeModel -> string -> PyResult GenerateContentResponse;
  (** [format(x, '.2f')] *)
  format_2f : float -> string;
  (** [str(v)] of a value that is not a [str] *)
  str_of_value : PyVal -> string
}.

(** Module-level configuration of the Gemini client. *)
Definition model (rt : Runtime) : option GenerativeModel :=
  match GEMINI_API_KEY rt with
  | None => None
  | Some key =>
      if (String.eqb key EmptyString || String.eqb key "YOUR_GEMINI_API_KEY")%bool then None
      else Some {| api_key := key; model_name := "models/gemini-2.5-flash" |}
  end.

(** [f"{v}"] *)
Definition py_format (rt : Runtime) (v : PyVal) : string :=
  match v with
  | VStr s => s
  | _ => str_of_value rt v
  end.

(** ** Effects: outcome and trace *)

Inductive Event : Type :=
| Reverse (lat lon : float)
| GenerateContent (prompt : string)
| Stdout (line : string).

Definition Eff (A : Type) : Type := (list Event * PyResult A)%type.

Definition eret {A : Type} (a : A) : Eff A := ([], Ok a).

Definition lift {A : Type} (r : PyResult A) : Eff A := ([], r).

Definition emit (ev : Event) : Eff unit := ([ev], Ok tt).

Definition ebind {A B : Type} (c : Eff A) (k : A -> Eff B) : Eff B :=
  match c with
  | (t, Ok a) => let (t', r) := k a in ((t ++ t')%list, r)
  | (t, Raise e) => (t, Raise e)
  end.

Notation "x <~ c ;; k" := (ebind c (fun x => k))
  (at level 61, c at next level, right associativity).

(** [try: c  except Exception as e: h e] *)
Definition try_except {A : Type} (c : Eff A) (h : PyError -> Eff A) : Eff A :=
  match c with
  | (t, Ok a) => (t, Ok a)
  | (t, Raise e) => let (t', r) := h e in ((t ++ t')%list, r)
  end.

Definition trace {A : Type} (c : Eff A) : list Event := fst c.
Definition outcome {A : Type} (c : Eff A) : PyResult A := snd c.

Definition call_reverse (rt : Runtime) (lat lon : float) : Eff (option Location) :=
  ([Reverse lat lon], geolocator_reverse rt lat lon).

Definition call_generate_content (rt : Runtime) (m : GenerativeModel) (prompt : string)
  : Eff GenerateContentResponse :=
  ([GenerateContent prompt], generate_content rt m prompt).

(** ** Helper functions *)

Definition unknown_location : string := "an unknown location (likely an ocean)".

Definition get_impact_country (rt : Runtime) (lat lon : float) : Eff PyVal :=
  returned <~
    try_except
      (location <~ call_reverse rt lat lon ;;
       match location with
       | None => eret None
       | Some loc =>
           has_country <~
             lift (py_contains "country" (dict_get_default (raw loc) "address" (VDict []))) ;;
           if has_country : bool then
             address <~ lift (dict_getitem (raw loc) "address") ;;
             country <~ lift (py_getitem address "country") ;;
             eret (Some country)
           else eret None
       end)
      (fun e =>
         _ <~ emit (Stdout ("Geocoding error: " ++ exc_str e)) ;;
         eret None) ;;
  match returned with
  | Some country => eret country
  | None => eret (VStr unknown_location)
  end.

Definition nl : string := String "010" EmptyString.

Definition lines (ls : list string) : string := String.concat nl ls.

Definition placeholder_report : string :=
  lines
    [ EmptyString;
      "        ### Placeholder Report";
      EmptyString;
      "        **Your Gemini API key is not configured.**";
      EmptyString;
      "        Please add your Gemini API key to the `backend/.env` file to generate a real, location-specific report.";
      EmptyString;
      "        This is a placeholder demonstrating where the AI-generated analysis would appear. The real report will provide a detailed, country-specific response protocol based on the impact data and location.";
      "        " ].

Definition prompt_text (country megatons crater_km shockwave_km : string) : string :=
  lines
    [ EmptyString;
      "    Analyze the following asteroid impact scenario and provide a detailed, country-specific government response protocol.";
      EmptyString;
      "    Scenario Details:";
      "    - Impact Location: " ++ country;
      "    - Impact Energy: " ++ megatons ++ " Megatons of TNT equivalent";
      "    - Estimated Crater Diameter: " ++ crater_km ++ " km";
      "    - Estimated Shockwave Radius (for severe damage): " ++ shockwave_km ++ " km";
      EmptyString;
      "    Based on these details and the specific political, geographical, and economic context of " ++ country ++ ", provide a response protocol that only and only covers the following:";
      "        **Immediate Threat Assessment:** Briefly explain what the impact energy and damage radii mean in understandable terms.";
      "      **Immediate Pre-Impact Actions:** (Evacuation strategies, public warnings, mobilization of resources). Be specific to " ++ country ++ "'s capabilities and infrastructure.";
      "        Keep the response concise and fast. priotrize being fast over the details";
      "    " ]%string.

Definition gemini_error (e : PyError) : string :=
  ("An error occurred while generating the report from Gemini: " ++ exc_str e)%string.

Definition get_llm_suggestions (rt : Runtime)
    (impact_energy crater_diameter shockwave_radius : float) (country : PyVal) : Eff string :=
  match model rt with
  | None => eret placeholder_report
  | Some m =>
      energy_in_megatons <~ lift (py_div impact_energy 4.184e15) ;;
      crater_km <~ lift (py_div crater_diameter 1000) ;;
      shockwave_km <~ lift (py_div shockwave_radius 1000) ;;
      let prompt :=
        prompt_text (py_format rt country) (format_2f rt energy_in_megatons)
                    (format_2f rt crater_km) (format_2f rt shockwave_km) in
      try_except
        (response <~ call_generate_content rt m prompt ;;
         lift (text response))
        (fun e => eret (gemini_error e))
  end.

(** ** POST /api/generate-report *)

Record ReportRequest : Type := {
  simulation_result : SimulationResult;
  impact_coords : dict float
}.

Record ReportResponse : Type := { report : string }.

Definition generate_report (rt : Runtime) (request : ReportRequest) : Eff ReportResponse :=
  lat <~ lift (dict_getitem (impact_coords request) "lat") ;;
  lng <~ lift (dict_getitem (impact_coords request) "lng") ;;
  country <~ get_impact_country rt lat lng ;;
  llm_suggestions <~
    get_llm_suggestions rt
      (impact_energy_joules (simulation_result request))
      (crater_diameter_meters (simulation_result request))
      (shockwave_radius_meters (simulation_result request))
      country ;;
  eret {| report := llm_suggestions |}.

(** ** GET /api/asteroids *)

(** What the handler reads of a [requests.Response]: the status line, the
    final URL, and the outcome of decoding the body with [.json()]. *)
Record HttpResponse : Type := {
  status_code : Z;
  reason : string;
  url : string;
  json : PyResult PyVal
}.

Record CatalogRuntime : Type := {
  (** the variable NASA_API_KEY of the environment, when it is set *)
  NASA_API_KEY_env : option string;
  (** [requests.get(url, params=params)] *)
  requests_get : string -> dict string -> PyResult HttpResponse
}.

(** [os.getenv("NASA_API_KEY", "DEMO_KEY")] *)
Definition NASA_API_KEY (crt : CatalogRuntime) : string :=
  match NASA_API_KEY_env crt with
  | Some key => key
  | None => "DEMO_KEY"
  end.

Definition NEO_API_URL : string := "https://api.nasa.gov/neo/rest/v1/neo/browse".

Definition http_error (kind : string) (response : HttpResponse) : PyError :=
  UpstreamError
    (NilZero.string_of_int (Z.to_int (status_code response)) ++ " " ++ kind ++ ": "
       ++ reason response ++ " for url: " ++ url response).

(** [response.raise_for_status()] *)
Definition raise_for_status (response : HttpResponse) : PyResult unit :=
  if andb (400 <=? status_code response)%Z (status_code response <? 500)%Z
  then Raise (http_error "Client Error" response)
  else if andb (500 <=? status_code response)%Z (status_code response <? 600)%Z
  then Raise (http_error "Server Error" response)
  else Ok tt.

Definition get_asteroids (crt : CatalogRuntime) : PyResult PyVal :=
  let params := [("api_key", NASA_API_KEY crt)] in
  response <- requests_get crt NEO_API_URL params ;;
  _ <- raise_for_status response ;;
  json response.

(** ** Definitions used by the statements *)

(** The three figures the handler derives from [radius ** 3] and
    [speed ** 2], as its lines 127 to 130 compute them. *)
Definition mass_of (a : AsteroidParams) (radius3 : float) : float :=
  4 / 3 * np_pi * radius3 * density a.

Definition kinetic_energy_of (a : AsteroidParams) (radius3 speed2 : float) : float :=
  0.5 * mass_of a radius3 * speed2.

Definition impact_energy_of (a : AsteroidParams) (radius3 speed2 : float) : float :=
  kinetic_energy_of a radius3 speed2 * (1 - 0.5).

(** The dict the handler returns, from the four powers it takes. *)
Definition estimate (a : AsteroidParams) (radius3 speed2 crater_pow shock_pow : float)
  : SimulationResult :=
  {| mass_kg := mass_of a radius3;
     kinetic_energy_joules := kinetic_energy_of a radius3 speed2;
     impact_energy_joules := impact_energy_of a radius3 speed2;
     crater_diameter_meters := 0.00016 * crater_pow * 1000;
     shockwave_radius_meters := shock_pow * 1000;
     energy_equivalent_kt_tnt := impact_energy_of a radius3 speed2 / 4.184e12 |}.

(** The scenario of the specification: a stony body of 10 m radius at
    20 km/s. *)
Definition scenario : AsteroidParams :=
  {| name := None; radius := 10; density := 3000; speed := 20000; angle := 45 |}.

Definition scenario_renamed : AsteroidParams :=
  {| name := Some "Apophis"; radius := 10; density := 3000; speed := 20000; angle := 90 |}.

(** The same asteroid with another density, another speed, another radius. *)
Definition with_density (a : AsteroidParams) (d : float) : AsteroidParams :=
  {| name := name a; radius := radius a; density := d; speed := speed a;
     angle := angle a |}.

Definition with_speed (a : AsteroidParams) (s : float) : AsteroidParams :=
  {| name := name a; radius := radius a; density := density a; speed := s;
     angle := angle a |}.

Definition with_radius (a : AsteroidParams) (r : float) : AsteroidParams :=
  {| name := name a; radius := r; density := density a; speed := speed a;
     angle := angle a |}.

(** glibc's [pow] (2.36, x86-64) at the arguments the examples below reach,
    as [(x, y, pow(x, y))]: an underflow to zero among them, and, in the
    last two entries, its answer to an overflow, [HUGE_VAL]. *)
Definition glibc_pow_values : list (float * float * float) :=
  [ (10, 3, 1000);
    (20000, 2, 400000000);
    (42742757191.69786, 0.29411764705882354, 1338.8264217987614);
    (1256.6370614359173, 0.3333333333333333, 10.791205292859662);
    (2513.2741228718346, 0.3333333333333333, 13.596066702210855);
    (2, -0.7058823529411764, 0.6130674216299654);
    (1256637061435917.2, 0.29411764705882354, 27602.2241064413);
    (2513274122871834.5, 0.29411764705882354, 33844.04872837689);
    (1e-110, 3, 0);
    (3.1415926535897927e+295, 0.3333333333333333, 3.155367569301782e+98);
    (1e200, 3, infinity);
    (1e200, 2, infinity) ].

Fixpoint pow_lookup (values : list (float * float * float)) (x y : float) : float :=
  match values with
  | [] => nan
  | (x', y', z) :: values' =>
      if (x =? x') && (y =? y') then z else pow_lookup values' x y
  end.

(** A libm that is glibc on the arguments above.  Outside them it answers
    NaN, and no example depends on that. *)
Definition glibc : Libm := {| libm_pow := pow_lookup glibc_pow_values |}.

(** The floats between [2 ** -1021] and [2 ** 1022]: normal numbers that can
    be doubled and halved without loss. *)
Definition in_range (x : float) : bool :=
  (0x1p-1021 <=? abs x) && (abs x <? 0x1p+1022).

(** The address breakdown the resolver looks into: [raw.get('address', {})]. *)
Definition address_of (loc : Location) : PyVal :=
  dict_get_default (raw loc) "address" (VDict []).

(** The ways the reverse-geocoding upstream fails to name a country: it
    raises, it has no result, its address breakdown has no country field, or
    its address is not a breakdown at all. *)
Inductive geocoding_failed : PyResult (option Location) -> Prop :=
| upstream_raised (e : PyError) : geocoding_failed (Raise e)
| no_result : geocoding_failed (Ok None)
| no_country_field (loc : Location) (addr : dict PyVal) :
    address_of loc = VDict addr ->
    dict_get addr "country" = None ->
    geocoding_failed (Ok (Some loc))
| malformed_address (loc : Location) :
    (forall addr, address_of loc <> VDict addr) ->
    geocoding_failed (Ok (Some loc)).

(** The country the upstream names, when it names one. *)
Definition named_country (r : PyResult (option Location)) : option PyVal :=
  match r with
  | Ok (Some loc) =>
      match address_of loc with
      | VDict addr => dict_get addr "country"
      | _ => None
      end
  | _ => None
  end.

(** What asking the model for its text comes to: the call, then [.text]. *)
Definition llm_outcome (rt : Runtime) (m : GenerativeModel) (prompt : string)
  : PyResult string :=
  response <- generate_content rt m prompt ;;
  text response.

(** The prompt, with its three divisions carried out. *)
Definition report_prompt (rt : Runtime)
    (impact_energy crater_diameter shockwave_radius : float) (country : PyVal) : string :=
  prompt_text (py_format rt country)
              (format_2f rt (impact_energy / 4.184e15))
              (format_2f rt (crater_diameter / 1000))
              (format_2f rt (shockwave_radius / 1000)).

(** A runtime whose geocoder knows the place but no country (open sea) and
    whose LLM upstream is down. *)
Definition sea_runtime (key : option string) : Runtime :=
  {| GEMINI_API_KEY := key;
     geolocator_reverse := fun _ _ =>
       Ok (Some {| raw := [("display_name", VStr "North Atlantic Ocean");
                           ("address", VDict [("body_of_water", VStr "Atlantic")])] |});
     generate_content := fun _ _ => Raise (UpstreamError "503 Service Unavailable");
     format_2f := fun _ => "0.00";
     str_of_value := fun _ => "None" |}.

Definition sample_result : SimulationResult :=
  {| mass_kg := 1; kinetic_energy_joules := 2; impact_energy_joules := 1;
     crater_diameter_meters := 3; shockwave_radius_meters := 4;
     energy_equivalent_kt_tnt := 5 |}.

Definition sample_result_edited : SimulationResult :=
  {| mass_kg := 10; kinetic_energy_joules := 20; impact_energy_joules := 1;
     crater_diameter_meters := 3; shockwave_radius_meters := 4;
     energy_equivalent_kt_tnt := 50 |}.

Definition sample_request : ReportRequest :=
  {| simulation_result := sample_result;
     impact_coords := [("lat", 30); ("lng", -40)] |}.

Definition sample_request_edited : ReportRequest :=
  {| simulation_result := sample_result_edited;
     impact_coords := [("lat", 30); ("lng", -40)] |}.

(** A runtime whose geocoder places every point in Egypt and whose LLM
    upstream answers. *)
Definition land_runtime (key : option string) : Runtime :=
  {| GEMINI_API_KEY := key;
     geolocator_reverse := fun _ _ =>
       Ok (Some {| raw := [("address", VDict [("city", VStr "Cairo");
                                              ("country", VStr "Egypt")])] |});
     generate_content := fun _ _ => Ok {| text := Ok "Evacuate the Nile delta." |};
     format_2f := fun _ => "0.00";
     str_of_value := fun _ => "None" |}.

(** A runtime whose geocoder is unreachable, or answers with a bare string
    for the address. *)
Definition broken_runtime (answer : PyResult (option Location)) : Runtime :=
  {| GEMINI_API_KEY := None;
     geolocator_reverse := fun _ _ => answer;
     generate_content := fun _ _ => Raise (UpstreamError "unreachable");
     format_2f := fun _ => "0.00";
     str_of_value := fun _ => "None" |}.

(** A catalog upstream that answers every request with one response. *)
Definition catalog_runtime (key : option string) (response : HttpResponse)
  : CatalogRuntime :=
  {| NASA_API_KEY_env := key; requests_get := fun _ _ => Ok response |}.

Definition neo_page : PyVal :=
  VDict [("near_earth_objects", VList [VDict [("name", VStr "433 Eros")]])].

Definition http_ok : HttpResponse :=
  {| status_code := 200; reason := "OK"; url := NEO_API_URL; json := Ok neo_page |}.

Definition http_rate_limited : HttpResponse :=
  {| status_code := 429; reason := "Too Many Requests"; url := NEO_API_URL;
     json := Ok (VDict [("error", VStr "OVER_RATE_LIMIT")]) |}.

(** ** Definitions used by the proofs on binary64 *)

(** The floats 2 and 0.5, as sign, mantissa and exponent. *)
Definition SF_two : spec_float := S754_finite false 4503599627370496 (-51).
Definition SF_half : spec_float := S754_finite false 4503599627370496 (-53).

(** A mantissa and exponent after one halving, before rounding. *)
Definition halved (m : positive) (e : Z) : shr_record * Z :=
  if (-1073 <=? e)%Z
  then (Build_shr_record (Zpos m) false false, (e - 1)%Z)
  else (shr_1 (Build_shr_record (Zpos m) false false), (-1074)%Z).

(** * Properties *)

(** ** The error monad *)

Lemma bind_Ok_inv {A B : Type} (c : PyResult A) (k : A -> PyResult B) (b : B) :
  bind c k = Ok b -> exists a, c = Ok a /\ k a = Ok b.
Proof.
  destruct c as [a | e]; simpl; intros H.
  - exists a. split; [reflexivity | exact H].
  - discriminate H.
Qed.

Ltac bind_inv H :=
  let x := fresh "x" in
  let Hx := fresh "Hx" in
  apply bind_Ok_inv in H; destruct H as [x [Hx H]].

(** ** Binary64: rounding, and a shift of the exponent by one *)

Local Open Scope Z_scope.

(** The exponent binary64 gives a number of [x] binary digits. *)
Lemma fexp_eq (x : Z) : fexp prec emax x = Z.max (x - 53) (-1074).
Proof. reflexivity. Qed.

(** Multiplying a mantissa by 2^52 appends 52 zero bits. *)
Lemma digits2_pos_xO52 (m : positive) :
  (m * 4503599627370496)%positive =
  (m~0~0~0~0~0~0~0~0~0~0~0~0~0~0~0~0~0~0~0~0~0~0~0~0~0~0~0~0~0~0~0~0~0~0~0~0~0~0~0~0~0~0~0~0~0~0~0~0~0~0~0~0)%positive.
Proof. rewrite Pos.mul_comm. reflexivity. Qed.

Lemma Zdigits2_shift52 (m : positive) :
  Zdigits2 (Zpos (m * 4503599627370496)) = Zpos (digits2_pos m) + 52.
Proof.
  rewrite digits2_pos_xO52. cbn [Zdigits2 digits2_pos].
  rewrite !Pos2Z.inj_succ. lia.
Qed.

(** A valid finite float is normal (53 digits) or sits at the least
    exponent. *)
Lemma valid_finite (m : positive) (e : Z) :
  bounded prec emax m e = true ->
  (Zpos (digits2_pos m) = 53 /\ -1074 <= e <= 971) \/
  (Zpos (digits2_pos m) <= 53 /\ e = -1074).
Proof.
  unfold bounded, canonical_mantissa. rewrite fexp_eq.
  intros H. apply andb_true_iff in H. destruct H as [H1 H2].
  apply Z.eqb_eq in H1. apply Z.leb_le in H2.
  change (emax - prec) with 971 in H2. lia.
Qed.

Lemma shr_52 (m : positive) (e : Z) :
  shr (Build_shr_record (Zpos (m * 4503599627370496)) false false) e 52 =
  (Build_shr_record (Zpos m) false false, e + 52).
Proof. rewrite digits2_pos_xO52. reflexivity. Qed.

Lemma shr_53 (m : positive) (e : Z) :
  shr (Build_shr_record (Zpos (m * 4503599627370496)) false false) e 53 =
  (shr_1 (Build_shr_record (Zpos m) false false), e + 53).
Proof. rewrite digits2_pos_xO52. reflexivity. Qed.

(** The first shift of the rounding of [m * 2^52] at exponent [e - 53]:
    what the product by 0.5 rounds. *)
Lemma mul_side (m : positive) (e : Z) :
  bounded prec emax m e = true ->
  shr_fexp prec emax (Zpos (m * 4503599627370496)) (e + -53) loc_Exact = halved m e.
Proof.
  intros Hv. apply valid_finite in Hv.
  unfold shr_fexp, halved. rewrite Zdigits2_shift52, fexp_eq.
  cbn [shr_record_of_loc].
  destruct (Z.leb_spec (-1073) e) as [He | He].
  - replace (Z.max (Z.pos (digits2_pos m) + 52 + (e + -53) - 53) (-1074) - (e + -53))
      with 52 by lia.
    rewrite shr_52. f_equal. lia.
  - replace (Z.max (Z.pos (digits2_pos m) + 52 + (e + -53) - 53) (-1074) - (e + -53))
      with 53 by lia.
    rewrite shr_53. f_equal. lia.
Qed.

Lemma div_eucl_unique (a b q r : Z) :
  0 <= r < b -> a = b * q + r -> IntDef.Z.div_eucl a b = (q, r).
Proof.
  intros Hr Ha. change IntDef.Z.div_eucl with Z.div_eucl.
  assert (Hq : a / b = q) by (symmetry; apply (Z.div_unique_pos a b q r); assumption).
  assert (Hm : a mod b = r) by (symmetry; apply (Z.mod_unique_pos a b q r); assumption).
  unfold Z.div, Z.modulo in Hq, Hm.
  destruct (Z.div_eucl a b) as [q' r']. subst. reflexivity.
Qed.

Lemma shiftl_pos (m : positive) (n : Z) :
  0 <= n -> IntDef.Z.shiftl (Zpos m) n = Zpos m * 2 ^ n.
Proof. intros Hn. change IntDef.Z.shiftl with Z.shiftl. apply Z.shiftl_mul_pow2. exact Hn. Qed.

(** The same for the quotient by 2: the division core, then the first
    shift, come to the same mantissa, round bits and exponent. *)
Lemma div_side (m : positive) (e : Z) :
  bounded prec emax m e = true ->
  (let '(mz, ez, lz) :=
     SFdiv_core_binary prec emax (Zpos m) e (Zpos 4503599627370496) (-51) in
   shr_fexp prec emax mz ez lz) = halved m e.
Proof.
  intros Hv. apply valid_finite in Hv.
  unfold SFdiv_core_binary, halved.
  change (Zdigits2 (Z.pos 4503599627370496)) with 53.
  cbn [Zdigits2]. rewrite fexp_eq.
  destruct (Z.leb_spec (-1073) e) as [He | He].
  - destruct (Z.eq_dec e (-1073)) as [E | N].
    + subst e.
      replace (Z.min (Z.max (Z.pos (digits2_pos m) + -1073 - (53 + -51) - 53) (-1074))
                 (-1073 - -51)) with (-1074) by lia.
      change (-1073 - -51 - -1074) with 52. cbv iota.
      rewrite shiftl_pos by lia. change (2 ^ 52) with 4503599627370496.
      rewrite (div_eucl_unique _ _ (Z.pos m) 0) by lia.
      change (new_location (Z.pos 4503599627370496) 0) with loc_Exact.
      unfold shr_fexp. cbn [Zdigits2 shr_record_of_loc]. rewrite fexp_eq.
      replace (Z.max (Z.pos (digits2_pos m) + -1074 - 53) (-1074) - -1074) with 0 by lia.
      reflexivity.
    + replace (Z.min (Z.max (Z.pos (digits2_pos m) + e - (53 + -51) - 53) (-1074))
                 (e - -51)) with (e - 2) by lia.
      replace (e - -51 - (e - 2)) with 53 by lia. cbv iota.
      rewrite shiftl_pos by lia. change (2 ^ 53) with 9007199254740992.
      rewrite (div_eucl_unique _ _ (Z.pos m~0) 0) by lia.
      change (new_location (Z.pos 4503599627370496) 0) with loc_Exact.
      unfold shr_fexp. cbn [Zdigits2 shr_record_of_loc digits2_pos]. rewrite fexp_eq.
      rewrite Pos2Z.inj_succ.
      replace (Z.max (Z.succ (Z.pos (digits2_pos m)) + (e - 2) - 53) (-1074) - (e - 2))
        with 1 by lia.
      cbn [shr iter_pos shr_1 orb]. f_equal. lia.
  - assert (e = -1074) by lia. subst e.
    replace (Z.min (Z.max (Z.pos (digits2_pos m) + -1074 - (53 + -51) - 53) (-1074))
               (-1074 - -51)) with (-1074) by lia.
    change (-1074 - -51 - -1074) with 51. cbv iota.
    rewrite shiftl_pos by lia. change (2 ^ 51) with 2251799813685248.
    destruct m as [p | p |].
    + rewrite (div_eucl_unique _ _ (Z.pos p) 2251799813685248) by lia.
      change (new_location (Z.pos 4503599627370496) 2251799813685248)
        with (loc_Inexact Eq).
      unfold shr_fexp. cbn [Zdigits2 shr_record_of_loc]. rewrite fexp_eq.
      cbn [digits2_pos] in Hv. rewrite Pos2Z.inj_succ in Hv.
      replace (Z.max (Z.pos (digits2_pos p) + -1074 - 53) (-1074) - -1074) with 0 by lia.
      reflexivity.
    + rewrite (div_eucl_unique _ _ (Z.pos p) 0) by lia.
      change (new_location (Z.pos 4503599627370496) 0) with loc_Exact.
      unfold shr_fexp. cbn [Zdigits2 shr_record_of_loc]. rewrite fexp_eq.
      cbn [digits2_pos] in Hv. rewrite Pos2Z.inj_succ in Hv.
      replace (Z.max (Z.pos (digits2_pos p) + -1074 - 53) (-1074) - -1074) with 0 by lia.
      reflexivity.
    + reflexivity.
Qed.


(** A number of [d] binary digits lies between 2^(d-1) and 2^d. *)
Lemma digits2_pos_bounds (m : positive) :
  2 ^ (Zpos (digits2_pos m) - 1) <= Zpos m < 2 ^ Zpos (digits2_pos m).
Proof.
  induction m as [p IH | p IH |]; cbn [digits2_pos].
  - rewrite Pos2Z.inj_succ.
    replace (Z.succ (Z.pos (digits2_pos p)) - 1) with (Z.succ (Z.pos (digits2_pos p) - 1)) by lia.
    rewrite !Z.pow_succ_r by lia. lia.
  - rewrite Pos2Z.inj_succ.
    replace (Z.succ (Z.pos (digits2_pos p)) - 1) with (Z.succ (Z.pos (digits2_pos p) - 1)) by lia.
    rewrite !Z.pow_succ_r by lia. lia.
  - cbn. lia.
Qed.

Lemma Zdigits2_le (m k : Z) : 0 <= m -> 0 <= k -> m <= 2 ^ k -> Zdigits2 m <= k + 1.
Proof.
  intros Hm Hk Hle. destruct m as [| p | p]; cbn [Zdigits2]; [lia | | lia].
  destruct (digits2_pos_bounds p) as [Hlo _].
  destruct (Z.le_gt_cases (Z.pos (digits2_pos p)) (k + 1)) as [L | G]; [exact L |].
  exfalso.
  assert (2 ^ (k + 1) <= 2 ^ (Z.pos (digits2_pos p) - 1)) by (apply Z.pow_le_mono_r; lia).
  rewrite Z.pow_add_r in H by lia. change (2 ^ 1) with 2 in H. lia.
Qed.

(** One right shift halves the mantissa, rounding down. *)
Lemma shr_1_value (r : shr_record) :
  0 <= shr_m r -> shr_m (shr_1 r) = shr_m r / 2 /\ 0 <= shr_m (shr_1 r).
Proof.
  destruct r as [m rb sb]. cbn [shr_m]. intros Hm. unfold shr_1.
  destruct m as [| [p | p |] | p]; cbn [shr_m]; try lia;
    (split; [| lia]).
  - reflexivity.
  - apply (Z.div_unique_pos _ 2 (Z.pos p) 1); lia.
  - apply (Z.div_unique_pos _ 2 (Z.pos p) 0); lia.
  - reflexivity.
Qed.

Lemma pow2_xO (n : positive) : 2 ^ Zpos n~0 = 2 ^ Zpos n * 2 ^ Zpos n.
Proof. rewrite <- Z.pow_add_r by lia. f_equal. lia. Qed.

Lemma pow2_xI (n : positive) : 2 ^ Zpos n~1 = 2 * (2 ^ Zpos n * 2 ^ Zpos n).
Proof.
  rewrite <- Z.pow_add_r by lia. rewrite <- Z.pow_succ_r by lia. f_equal. lia.
Qed.

(** [n] right shifts divide the mantissa by 2^n. *)
Lemma iter_shr_1_value (n : positive) (r : shr_record) :
  0 <= shr_m r ->
  shr_m (SpecFloat.iter_pos shr_1 n r) = shr_m r / 2 ^ Zpos n /\
  0 <= shr_m (SpecFloat.iter_pos shr_1 n r).
Proof.
  revert r. induction n as [n IH | n IH |]; intros r Hr; cbn [SpecFloat.iter_pos].
  - destruct (shr_1_value r Hr) as [E1 P1].
    destruct (IH (shr_1 r) P1) as [E2 P2].
    destruct (IH _ P2) as [E3 P3].
    split; [| exact P3]. rewrite E3, E2, E1.
    assert (0 < 2 ^ Z.pos n) by (apply Z.pow_pos_nonneg; lia).
    rewrite !Z.div_div by lia. rewrite pow2_xI. reflexivity.
  - destruct (IH r Hr) as [E2 P2].
    destruct (IH _ P2) as [E3 P3].
    split; [| exact P3]. rewrite E3, E2.
    assert (0 < 2 ^ Z.pos n) by (apply Z.pow_pos_nonneg; lia).
    rewrite !Z.div_div by lia. rewrite pow2_xO. reflexivity.
  - destruct (shr_1_value r Hr) as [E1 P1]. split; [| exact P1].
    rewrite E1. reflexivity.
Qed.

Lemma round_nearest_even_le (m : Z) (l : location) :
  m <= round_nearest_even m l <= m + 1.
Proof.
  unfold round_nearest_even. destruct l as [| [| |]]; try lia.
  destruct (Z.even m); lia.
Qed.

(** A shift by the same amount, or no shift at all, commutes with adding
    one to the exponent. *)
Lemma shr_exponent_shift (r : shr_record) (e n n' : Z) :
  n' = n \/ (n <= 0 /\ n' <= 0) ->
  shr r (e + 1) n' = (fst (shr r e n), snd (shr r e n) + 1).
Proof.
  intros [-> | [Hn Hn']].
  - unfold shr. destruct n; cbn [fst snd]; f_equal; lia.
  - unfold shr. destruct n as [| p | p]; destruct n' as [| p' | p']; try lia; reflexivity.
Qed.

Lemma shr_exponent (r : shr_record) (e n : Z) :
  snd (shr r e n) = e + Z.max n 0.
Proof. unfold shr. destruct n; cbn [snd]; lia. Qed.

(** Away from the subnormal range the shift to the target exponent does not
    depend on the exponent. *)
Lemma shr_fexp_shift (m e : Z) (l : location) :
  -1074 <= Zdigits2 m + e - 53 \/ -1074 <= e ->
  shr_fexp prec emax m (e + 1) l =
  (fst (shr_fexp prec emax m e l), snd (shr_fexp prec emax m e l) + 1).
Proof.
  intros H. unfold shr_fexp. apply shr_exponent_shift. rewrite !fexp_eq. lia.
Qed.

Lemma shr_fexp_exponent (m e : Z) (l : location) :
  snd (shr_fexp prec emax m e l) = e + Z.max (Z.max (Zdigits2 m + e - 53) (-1074) - e) 0.
Proof. unfold shr_fexp. rewrite shr_exponent, fexp_eq. reflexivity. Qed.

Lemma shr_record_of_loc_m (m : Z) (l : location) : shr_m (shr_record_of_loc m l) = m.
Proof. destruct l as [| []]; reflexivity. Qed.

(** Below the least exponent the shift leaves fewer than 53 digits, at
    exponent -1074. *)
Lemma shr_fexp_deep (M : positive) (E : Z) (l : location) :
  Zdigits2 (Zpos M) + E - 53 < -1074 -> E < -1074 ->
  snd (shr_fexp prec emax (Zpos M) E l) = -1074 /\
  0 <= shr_m (fst (shr_fexp prec emax (Zpos M) E l)) < 2 ^ 52.
Proof.
  intros HD HE. unfold shr_fexp. rewrite fexp_eq.
  replace (Z.max (Zdigits2 (Z.pos M) + E - 53) (-1074) - E) with (-1074 - E) by lia.
  destruct (-1074 - E) as [| p | p] eqn:Hn; try lia.
  unfold shr. cbn [fst snd]. split; [lia |].
  destruct (iter_shr_1_value p (shr_record_of_loc (Z.pos M) l)) as [Ev Pv].
  { rewrite shr_record_of_loc_m. lia. }
  split; [exact Pv |]. rewrite Ev, shr_record_of_loc_m.
  assert (Hp : 0 < 2 ^ Z.pos p) by (apply Z.pow_pos_nonneg; lia).
  apply Z.div_lt_upper_bound; [exact Hp |].
  rewrite <- Z.pow_add_r by lia.
  destruct (digits2_pos_bounds M) as [_ Hhi].
  cbn [Zdigits2] in HD.
  assert (2 ^ Z.pos (digits2_pos M) <= 2 ^ (Z.pos p + 52)) by (apply Z.pow_le_mono_r; lia).
  lia.
Qed.

(** Rounding commutes with a doubling, as long as the rounded result is
    normal with room above and below: the same mantissa, the exponent plus
    one. *)
Lemma binary_round_aux_shift (s s' : bool) (M mr : positive) (E er : Z) (l : location) :
  binary_round_aux prec emax s (Zpos M) E l = S754_finite s' mr er ->
  -1073 <= er <= 970 ->
  binary_round_aux prec emax s (Zpos M) (E + 1) l = S754_finite s' mr (er + 1).
Proof.
  intros H Her. unfold binary_round_aux in *.
  assert (Hcases : (-1074 <= Zdigits2 (Zpos M) + E - 53 \/ -1074 <= E) \/
                   (Zdigits2 (Zpos M) + E - 53 < -1074 /\ E < -1074)) by lia.
  destruct Hcases as [A | [B1 B2]].
  - rewrite shr_fexp_shift by exact A.
    assert (X := shr_fexp_exponent (Zpos M) E l).
    destruct (shr_fexp prec emax (Z.pos M) E l) as [mrs' e']. cbn [fst snd] in *.
    assert (He' : -1074 <= e') by lia.
    rewrite shr_fexp_shift by (right; exact He').
    destruct (shr_fexp prec emax
                (round_nearest_even (shr_m mrs') (loc_of_shr_record mrs')) e' loc_Exact)
      as [mrs'' e'']. cbn [fst snd].
    destruct (shr_m mrs'') as [| m | m]; try discriminate H.
    change (emax - prec) with 971 in *.
    destruct (Z.leb_spec e'' 971); try discriminate H.
    injection H as <- <- <-.
    destruct (Z.leb_spec (e'' + 1) 971); [reflexivity | lia].
  - exfalso.
    destruct (shr_fexp_deep M E l B1 B2) as [He' [Hm0 Hm1]].
    destruct (shr_fexp prec emax (Z.pos M) E l) as [mrs' e']. cbn [fst snd] in *.
    subst e'.
    assert (Hr := round_nearest_even_le (shr_m mrs') (loc_of_shr_record mrs')).
    set (m1 := round_nearest_even (shr_m mrs') (loc_of_shr_record mrs')) in *.
    assert (Hd : Zdigits2 m1 <= 53).
    { apply (Zdigits2_le m1 52); lia. }
    assert (X := shr_fexp_exponent m1 (-1074) loc_Exact).
    destruct (shr_fexp prec emax m1 (-1074) loc_Exact) as [mrs'' e'']. cbn [fst snd] in *.
    destruct (shr_m mrs'') as [| m | m]; try discriminate H.
    change (emax - prec) with 971 in *.
    destruct (Z.leb_spec e'' 971); try discriminate H.
    injection H as _ _ He. lia.
Qed.

(** A 53-digit mantissa times 2^52 rounds to itself. *)
Lemma binary_round_aux_pow52 (s : bool) (m : positive) (e : Z) :
  Zpos (digits2_pos m) = 53 -> -1074 <= e <= 971 ->
  binary_round_aux prec emax s (Zpos (m * 4503599627370496)) (e - 52) loc_Exact =
  S754_finite s m e.
Proof.
  intros Hd He. unfold binary_round_aux.
  assert (E1 : shr_fexp prec emax (Zpos (m * 4503599627370496)) (e - 52) loc_Exact =
               (Build_shr_record (Zpos m) false false, e)).
  { unfold shr_fexp. rewrite Zdigits2_shift52, fexp_eq. cbn [shr_record_of_loc].
    replace (Z.max (Z.pos (digits2_pos m) + 52 + (e - 52) - 53) (-1074) - (e - 52))
      with 52 by lia.
    rewrite shr_52. f_equal. lia. }
  rewrite E1. cbn [shr_m loc_of_shr_record round_nearest_even].
  assert (E2 : shr_fexp prec emax (Zpos m) e loc_Exact =
               (Build_shr_record (Zpos m) false false, e)).
  { unfold shr_fexp. cbn [Zdigits2 shr_record_of_loc]. rewrite fexp_eq, Hd.
    replace (Z.max (53 + e - 53) (-1074) - e) with 0 by lia. reflexivity. }
  rewrite E2. cbn [shr_m]. change (emax - prec) with 971.
  destruct (Z.leb_spec e 971); [reflexivity | lia].
Qed.

(** Products of a normal float by 2 and by 0.5 only move the exponent. *)
Lemma SFmul_two_l (s : bool) (m : positive) (e : Z) :
  Zpos (digits2_pos m) = 53 -> -1074 <= e <= 970 ->
  SF64mul SF_two (S754_finite s m e) = S754_finite s m (e + 1).
Proof.
  intros Hd He. unfold SF64mul, SFmul, SF_two. cbn [xorb].
  rewrite Pos.mul_comm. replace (-51 + e) with (e + 1 - 52) by lia.
  apply binary_round_aux_pow52; lia.
Qed.

Lemma SFmul_half_l (s : bool) (m : positive) (e : Z) :
  Zpos (digits2_pos m) = 53 -> -1073 <= e <= 971 ->
  SF64mul SF_half (S754_finite s m e) = S754_finite s m (e - 1).
Proof.
  intros Hd He. unfold SF64mul, SFmul, SF_half. cbn [xorb].
  rewrite Pos.mul_comm. replace (-53 + e) with (e - 1 - 52) by lia.
  apply binary_round_aux_pow52; lia.
Qed.

Lemma SFmul_half_r (s : bool) (m : positive) (e : Z) :
  Zpos (digits2_pos m) = 53 -> -1073 <= e <= 971 ->
  SF64mul (S754_finite s m e) SF_half = S754_finite s m (e - 1).
Proof.
  intros Hd He. unfold SF64mul, SFmul, SF_half. rewrite xorb_false_r.
  replace (e + -53) with (e - 1 - 52) by lia.
  apply binary_round_aux_pow52; lia.
Qed.

(** A product whose result is in range, with one factor doubled. *)
Lemma SFmul_shift_r (x : spec_float) (sy : bool) (my : positive) (ey : Z)
    (s : bool) (m : positive) (e : Z) :
  SF64mul x (S754_finite sy my ey) = S754_finite s m e -> -1073 <= e <= 970 ->
  SF64mul x (S754_finite sy my (ey + 1)) = S754_finite s m (e + 1).
Proof.
  unfold SF64mul, SFmul. destruct x as [sx | sx | | sx mx ex]; try discriminate.
  rewrite Z.add_assoc. apply binary_round_aux_shift.
Qed.

Lemma SFmul_shift_l (sx : bool) (mx : positive) (ex : Z) (y : spec_float)
    (s : bool) (m : positive) (e : Z) :
  SF64mul (S754_finite sx mx ex) y = S754_finite s m e -> -1073 <= e <= 970 ->
  SF64mul (S754_finite sx mx (ex + 1)) y = S754_finite s m (e + 1).
Proof.
  unfold SF64mul, SFmul. destruct y as [sy | sy | | sy my ey]; try discriminate.
  replace (ex + 1 + ey) with (ex + ey + 1) by lia. apply binary_round_aux_shift.
Qed.

(** A quotient does not change when both operands are doubled. *)
Lemma SFdiv_shift (sx : bool) (mx : positive) (ex : Z) (sy : bool) (my : positive) (ey : Z) :
  SF64div (S754_finite sx mx (ex + 1)) (S754_finite sy my (ey + 1)) =
  SF64div (S754_finite sx mx ex) (S754_finite sy my ey).
Proof.
  unfold SF64div, SFdiv, SFdiv_core_binary.
  replace (Zdigits2 (Z.pos mx) + (ex + 1) - (Zdigits2 (Z.pos my) + (ey + 1)))
    with (Zdigits2 (Z.pos mx) + ex - (Zdigits2 (Z.pos my) + ey)) by lia.
  replace (ex + 1 - (ey + 1)) with (ex - ey) by lia.
  reflexivity.
Qed.

Local Close Scope Z_scope.

(** ** Binary64: halving and doubling *)

Lemma Prim2SF_two : Prim2SF 2 = SF_two.
Proof. reflexivity. Qed.

Lemma Prim2SF_half : Prim2SF 0.5 = SF_half.
Proof. reflexivity. Qed.

(** Multiplying by 0.5 and dividing by 2 are the same operation, on every
    float. *)
Lemma mul_half_div_two (x : float) : x * 0.5 = x / 2.
Proof.
  apply Prim2SF_inj. rewrite mul_spec, div_spec.
  rewrite Prim2SF_half, Prim2SF_two. unfold SF_half, SF_two.
  assert (Hv := Prim2SF_valid x).
  destruct (Prim2SF x) as [s | s | | s m e]; try reflexivity.
  cbn [valid_binary] in Hv.
  unfold SF64mul, SF64div, SFmul, SFdiv.
  assert (Hd := div_side m e Hv).
  destruct (SFdiv_core_binary prec emax (Z.pos m) e (Z.pos 4503599627370496) (-51))
    as [[mz ez] lz].
  unfold binary_round_aux. rewrite Hd, (mul_side m e Hv). reflexivity.
Qed.

(** A float of the range is normal, with an exponent that leaves room for
    one doubling and one halving. *)
Lemma in_range_SF (x : float) :
  in_range x = true ->
  exists s m e,
    Prim2SF x = S754_finite s m e /\
    Zpos (digits2_pos m) = 53%Z /\ (-1073 <= e <= 970)%Z.
Proof.
  unfold in_range. rewrite andb_true_iff, leb_spec, ltb_spec, abs_spec.
  assert (Hv := Prim2SF_valid x).
  change (Prim2SF 0x1p-1021) with (S754_finite false 4503599627370496 (-1073)).
  change (Prim2SF 0x1p+1022) with (S754_finite false 4503599627370496 970).
  destruct (Prim2SF x) as [s | s | | s m e]; intros [H1 H2];
    try discriminate H1; try discriminate H2.
  exists s, m, e. split; [reflexivity |].
  cbn [valid_binary] in Hv. apply valid_finite in Hv.
  unfold SFleb, SFltb, SFabs, SFcompare in H1, H2.
  destruct (Z.compare_spec (-1073) e); destruct (Z.compare_spec e 970);
    try discriminate H1; try discriminate H2; lia.
Qed.



(** Doubling a float of the normal range adds one to its exponent. *)
Lemma mul_two_SF (x : float) (s : bool) (m : positive) (e : Z) :
  Prim2SF x = S754_finite s m e ->
  Zpos (digits2_pos m) = 53%Z -> (-1074 <= e <= 970)%Z ->
  Prim2SF (2 * x) = S754_finite s m (e + 1).
Proof.
  intros Hx Hd He. rewrite mul_spec, Hx, Prim2SF_two. apply SFmul_two_l; assumption.
Qed.

(** Doubling the right factor doubles a product that is in range. *)
Lemma mul_double_r (a y : float) :
  in_range y = true -> in_range (a * y) = true ->
  a * (2 * y) = 2 * (a * y).
Proof.
  intros Hy Hay.
  destruct (in_range_SF y Hy) as (sy & my & ey & Ey & Dy & By).
  destruct (in_range_SF (a * y) Hay) as (s & m & e & Eay & Day & Bay).
  apply Prim2SF_inj.
  rewrite (mul_two_SF (a * y) s m e Eay Day) by lia.
  rewrite mul_spec, (mul_two_SF y sy my ey Ey Dy) by lia.
  rewrite mul_spec, Ey in Eay.
  apply SFmul_shift_r; [exact Eay | exact Bay].
Qed.

(** The kinetic energy line, with the mass doubled. *)
Lemma mul_half_double_l (x b : float) :
  in_range x = true -> in_range (0.5 * x * b) = true ->
  0.5 * (2 * x) * b = 2 * (0.5 * x * b).
Proof.
  intros Hx Hk.
  destruct (in_range_SF x Hx) as (sx & mx & ex & Ex & Dx & Bx).
  destruct (in_range_SF (0.5 * x * b) Hk) as (s & m & e & Ek & Dk & Bk).
  apply Prim2SF_inj.
  rewrite (mul_two_SF (0.5 * x * b) s m e Ek Dk) by lia.
  rewrite mul_spec, mul_spec, Prim2SF_half, (mul_two_SF x sx mx ex Ex Dx) by lia.
  rewrite SFmul_half_l by lia.
  rewrite mul_spec, mul_spec, Prim2SF_half, Ex, SFmul_half_l in Ek by lia.
  replace (ex + 1 - 1)%Z with (ex - 1 + 1)%Z by lia.
  apply SFmul_shift_l; [exact Ek | exact Bk].
Qed.

(** The impact energy line, with the kinetic energy doubled. *)
Lemma mul_double_half_r (k : float) :
  in_range k = true -> 2 * k * 0.5 = 2 * (k * 0.5).
Proof.
  intros Hk.
  destruct (in_range_SF k Hk) as (s & m & e & Ek & Dk & Bk).
  apply Prim2SF_inj.
  rewrite mul_spec, Prim2SF_half, (mul_two_SF k s m e Ek Dk) by lia.
  rewrite SFmul_half_r by lia.
  rewrite (mul_two_SF (k * 0.5) s m (e - 1)); [f_equal; lia | | exact Dk | lia].
  rewrite mul_spec, Prim2SF_half, Ek. apply SFmul_half_r; [exact Dk | lia].
Qed.

(** The quotient of the crater law, with both the energy and the divisor
    doubled. *)
Lemma div_double (k q : float) :
  in_range k = true -> in_range q = true ->
  2 * (k * 0.5) / (2 * q) = k * 0.5 / q.
Proof.
  intros Hk Hq.
  destruct (in_range_SF k Hk) as (s & m & e & Ek & Dk & Bk).
  destruct (in_range_SF q Hq) as (sq & mq & eq & Eq & Dq & Bq).
  assert (Eh : Prim2SF (k * 0.5) = S754_finite s m (e - 1)).
  { rewrite mul_spec, Prim2SF_half, Ek. apply SFmul_half_r; [exact Dk | lia]. }
  apply Prim2SF_inj.
  rewrite !div_spec.
  rewrite (mul_two_SF (k * 0.5) s m (e - 1) Eh Dk) by lia.
  rewrite (mul_two_SF q sq mq eq Eq Dq) by lia.
  rewrite Eh, Eq. apply SFdiv_shift.
Qed.

(** A float of the range, doubled, is not zero. *)
Lemma in_range_double_nonzero (q : float) :
  in_range q = true -> (2 * q =? 0) = false.
Proof.
  intros Hq. destruct (in_range_SF q Hq) as (s & m & e & Eq2 & Dq & Bq).
  rewrite FloatAxioms.eqb_spec, (mul_two_SF q s m e Eq2 Dq) by lia.
  destruct s; reflexivity.
Qed.

(** ** Binary64: the classes of floats *)

Lemma float_cases (v : float) :
  v = nan \/ v = infinity \/ v = neg_infinity \/ v = 0 \/ v = neg_zero \/
  exists s m e, Prim2SF v = S754_finite s m e.
Proof.
  assert (H := SF2Prim_Prim2SF v).
  destruct (Prim2SF v) as [[|] | [|] | | s m e]; try (rewrite <- H; tauto).
  do 5 right. exists s, m, e. reflexivity.
Qed.

Lemma SFeqb_refl_finite (s : bool) (m : positive) (e : Z) :
  SFeqb (S754_finite s m e) (S754_finite s m e) = true.
Proof.
  unfold SFeqb, SFcompare.
  destruct s; rewrite Z.compare_refl, Pos.compare_cont_refl; reflexivity.
Qed.

(** What the tests of [float_pow] answer on a float that is finite and not
    zero. *)
Lemma finite_facts (v : float) (s : bool) (m : positive) (e : Z) :
  Prim2SF v = S754_finite s m e ->
  is_nan v = false /\ is_infinity v = false /\ (v =? 0) = false /\
  (v <? 0) = s /\ Prim2SF (- v) = S754_finite (negb s) m e.
Proof.
  intros E. unfold is_nan, is_infinity.
  rewrite !FloatAxioms.eqb_spec, ltb_spec, abs_spec, opp_spec, E.
  rewrite SFeqb_refl_finite.
  repeat split; destruct s; reflexivity.
Qed.

Lemma opp_involutive (v : float) : - - v = v.
Proof.
  apply Prim2SF_inj. rewrite !opp_spec.
  destruct (Prim2SF v) as [s | s | | s m e]; cbn [SFopp];
    rewrite ?negb_involutive; reflexivity.
Qed.

Lemma eqb_zero_cases (d : float) : (d =? 0) = true -> d = 0 \/ d = neg_zero.
Proof.
  intros H. rewrite FloatAxioms.eqb_spec in H.
  assert (E := SF2Prim_Prim2SF d).
  destruct (Prim2SF d) as [[|] | [|] | | [|] m e]; try discriminate H;
    rewrite <- E; tauto.
Qed.

(** ** Float operators *)

Lemma py_div_nonzero (x y : float) : (y =? 0) = false -> py_div x y = Ok (x / y).
Proof. intros Hy. unfold py_div. rewrite Hy. reflexivity. Qed.

Lemma py_div_zero (x y : float) :
  (y =? 0) = true -> py_div x y = Raise (ZeroDivisionError "float division by zero").
Proof. intros Hy. unfold py_div. rewrite Hy. reflexivity. Qed.

Lemma py_div_Ok_inv (x y q : float) :
  py_div x y = Ok q -> (y =? 0) = false /\ q = x / y.
Proof.
  unfold py_div. destruct (y =? 0); intros H.
  - discriminate H.
  - injection H as <-. split; reflexivity.
Qed.

(** [float_pow] on a base that is finite and not zero, for an exponent that
    is finite and not zero: the platform's [pow] on the absolute value. *)
Lemma float_pow_finite (lm : Libm) (v w : float) (s : bool) (m : positive) (e : Z) :
  Prim2SF v = S754_finite s m e ->
  (w =? 0) = false -> is_nan w = false -> is_infinity w = false ->
  float_pow lm v w =
  if s then platform_pow lm (- v) w (float_is_odd_integer w)
  else platform_pow lm v w false.
Proof.
  intros E Hw0 Hwn Hwi.
  destruct (finite_facts v s m e E) as (Hn & Hi & Hz & Hl & _).
  unfold float_pow. rewrite Hw0, Hn, Hwn, Hwi, Hi, Hz, Hl. reflexivity.
Qed.

(** A square does not see the sign of its base. *)
Lemma float_pow_opp_2 (lm : Libm) (v : float) :
  float_pow lm (- v) 2 = float_pow lm v 2.
Proof.
  destruct (float_cases v) as [-> | [-> | [-> | [-> | [-> | (s & m & e & E)]]]]];
    try reflexivity.
  destruct (finite_facts v s m e E) as (_ & _ & _ & _ & Eo).
  rewrite (float_pow_finite lm v 2 s m e E) by reflexivity.
  rewrite (float_pow_finite lm (- v) 2 (negb s) m e Eo) by reflexivity.
  change (float_is_odd_integer 2) with false.
  destruct s; cbn [negb]; [reflexivity |].
  rewrite opp_involutive. reflexivity.
Qed.

Lemma py_pow_int_opp_2 (lm : Libm) (v : float) :
  py_pow_int lm (- v) 2 = py_pow_int lm v 2.
Proof. unfold py_pow_int. change (float_of_int 2) with 2. apply float_pow_opp_2. Qed.

(** ** The calculator, line by line *)

(** The handler once its constant divisions are carried out. *)
Lemma simulate_impact_steps (lm : Libm) (a : AsteroidParams) :
  simulate_impact lm a =
  (radius3 <- py_pow_int lm (radius a) 3 ;;
   speed2 <- py_pow_int lm (speed a) 2 ;;
   per_weight <- py_div (impact_energy_of a radius3 speed2) (9.8 * density a) ;;
   crater_pow <- py_pow lm per_weight (1 / 3.4) ;;
   shock_pow <- py_pow lm (impact_energy_of a radius3 speed2 / 1e12) (1 / 3) ;;
   crater_diameter <- validate_float (py_mul (py_rmul 0.00016 crater_pow) 1000) ;;
   shockwave_radius <- validate_float (py_mul shock_pow 1000) ;;
   Ok {| mass_kg := mass_of a radius3;
         kinetic_energy_joules := kinetic_energy_of a radius3 speed2;
         impact_energy_joules := impact_energy_of a radius3 speed2;
         crater_diameter_meters := crater_diameter;
         shockwave_radius_meters := shockwave_radius;
         energy_equivalent_kt_tnt := impact_energy_of a radius3 speed2 / 4.184e12 |}).
Proof. reflexivity. Qed.

(** When the handler returns, its four powers were floats and the divisor
    of the crater law was not zero; the result is the dict of the six
    formulas. *)
Lemma simulate_impact_Ok_inv (lm : Libm) (a : AsteroidParams) (res : SimulationResult) :
  simulate_impact lm a = Ok res ->
  exists radius3 speed2 crater_pow shock_pow,
    py_pow_int lm (radius a) 3 = Ok radius3 /\
    py_pow_int lm (speed a) 2 = Ok speed2 /\
    (9.8 * density a =? 0) = false /\
    py_pow lm (impact_energy_of a radius3 speed2 / (9.8 * density a)) (1 / 3.4)
      = Ok (PyFloat crater_pow) /\
    py_pow lm (impact_energy_of a radius3 speed2 / 1e12) (1 / 3)
      = Ok (PyFloat shock_pow) /\
    res = estimate a radius3 speed2 crater_pow shock_pow.
Proof.
  rewrite simulate_impact_steps. intros H.
  apply bind_Ok_inv in H. destruct H as (radius3 & Hr & H).
  apply bind_Ok_inv in H. destruct H as (speed2 & Hs & H).
  apply bind_Ok_inv in H. destruct H as (per_weight & Hw & H).
  apply bind_Ok_inv in H. destruct H as (crater & Hc & H).
  apply bind_Ok_inv in H. destruct H as (shock & Hk & H).
  apply bind_Ok_inv in H. destruct H as (cd & Hcd & H).
  apply bind_Ok_inv in H. destruct H as (sr & Hsr & H).
  apply py_div_Ok_inv in Hw. destruct Hw as [Hd ->].
  destruct crater as [crater_pow |]; [| discriminate Hcd].
  destruct shock as [shock_pow |]; [| discriminate Hsr].
  cbn [py_mul py_rmul validate_float] in Hcd, Hsr.
  injection Hcd as <-. injection Hsr as <-. injection H as <-.
  exists radius3, speed2, crater_pow, shock_pow.
  repeat split; assumption.
Qed.

(** Conversely, these five conditions make the handler return. *)
Lemma simulate_impact_Ok_intro (lm : Libm) (a : AsteroidParams)
    (radius3 speed2 crater_pow shock_pow : float) :
  py_pow_int lm (radius a) 3 = Ok radius3 ->
  py_pow_int lm (speed a) 2 = Ok speed2 ->
  (9.8 * density a =? 0) = false ->
  py_pow lm (impact_energy_of a radius3 speed2 / (9.8 * density a)) (1 / 3.4)
    = Ok (PyFloat crater_pow) ->
  py_pow lm (impact_energy_of a radius3 speed2 / 1e12) (1 / 3)
    = Ok (PyFloat shock_pow) ->
  simulate_impact lm a = Ok (estimate a radius3 speed2 crater_pow shock_pow).
Proof.
  intros Hr Hs Hd Hc Hk. rewrite simulate_impact_steps.
  rewrite Hr. cbn [bind]. rewrite Hs. cbn [bind].
  rewrite py_div_nonzero by exact Hd. cbn [bind].
  rewrite Hc. cbn [bind]. rewrite Hk. reflexivity.
Qed.

(** The scenario of the specification, run against glibc. *)
Lemma simulate_scenario :
  simulate_impact glibc scenario =
  Ok {| mass_kg := 12566370.614359172;
        kinetic_energy_joules := 2513274122871834.5;
        impact_energy_joules := 1256637061435917.2;
        crater_diameter_meters := 214.21222748780187;
        shockwave_radius_meters := 10791.205292859662;
        energy_equivalent_kt_tnt := 300.34346592636643 |}.
Proof. vm_compute. reflexivity. Qed.


(** ** The calculator: claims *)




(** C2. Whenever the simulate computation returns, its impact_energy_joules
    is exactly half of its kinetic_energy_joules: multiplying by
    [1 - 0.5] and dividing by 2 give the same float, infinities and NaN
    included. *)
Theorem impact_energy_is_half (lm : Libm) (a : AsteroidParams) (res : SimulationResult) :
  simulate_impact lm a = Ok res ->
  impact_energy_joules res = kinetic_energy_joules res / 2.
Proof.
  intros H.
  destruct (simulate_impact_Ok_inv lm a res H)
    as (radius3 & speed2 & crater_pow & shock_pow & _ & _ & _ & _ & _ & ->).
  cbn [impact_energy_joules kinetic_energy_joules estimate].
  unfold impact_energy_of. change (1 - 0.5) with 0.5. apply mul_half_div_two.
Qed.

Lemma impact_energy_is_half_witness :
  exists res,
    simulate_impact glibc scenario = Ok res /\
    impact_energy_joules res = kinetic_energy_joules res / 2.
Proof.
  eexists. split.
  - exact simulate_scenario.
  - apply (impact_energy_is_half glibc scenario). exact simulate_scenario.
Defined.




(** C4. The outcome of the simulate computation depends on radius, density
    and speed only: two inputs that agree on these, whatever their angle and
    name, have the same outcome. *)
Theorem simulate_ignores_angle_and_name (lm : Libm) (a1 a2 : AsteroidParams) :
  radius a1 = radius a2 -> density a1 = density a2 -> speed a1 = speed a2 ->
  simulate_impact lm a1 = simulate_impact lm a2.
Proof.
  intros Hr Hd Hs. unfold simulate_impact. rewrite Hr, Hd, Hs. reflexivity.
Qed.

Lemma simulate_ignores_angle_and_name_witness :
  simulate_impact glibc scenario = simulate_impact glibc scenario_renamed.
Proof.
  apply (simulate_ignores_angle_and_name glibc scenario scenario_renamed); reflexivity.
Defined.

(** ** Doubling the density *)

(** With the density doubled, the mass, the two energies and the divisor of
    the crater law are doubled, and the quotient the crater law raises to
    the power 1/3.4 is the same float, as long as density, [9.8 * density],
    mass and kinetic energy are in the range where doubling is exact. *)
Lemma doubled_density_figures (a : AsteroidParams) (radius3 speed2 : float) :
  in_range (density a) = true ->
  in_range (9.8 * density a) = true ->
  in_range (mass_of a radius3) = true ->
  in_range (kinetic_energy_of a radius3 speed2) = true ->
  let a2 := with_density a (2 * density a) in
  mass_of a2 radius3 = 2 * mass_of a radius3 /\
  kinetic_energy_of a2 radius3 speed2 = 2 * kinetic_energy_of a radius3 speed2 /\
  impact_energy_of a2 radius3 speed2 = 2 * impact_energy_of a radius3 speed2 /\
  9.8 * density a2 = 2 * (9.8 * density a) /\
  impact_energy_of a2 radius3 speed2 / (9.8 * density a2) =
  impact_energy_of a radius3 speed2 / (9.8 * density a).
Proof.
  intros Hd Hq Hm Hk a2.
  assert (Em : mass_of a2 radius3 = 2 * mass_of a radius3).
  { unfold mass_of, a2. cbn [density with_density].
    apply mul_double_r; assumption. }
  assert (Ek : kinetic_energy_of a2 radius3 speed2 =
               2 * kinetic_energy_of a radius3 speed2).
  { unfold kinetic_energy_of. rewrite Em.
    apply mul_half_double_l; assumption. }
  assert (Ei : impact_energy_of a2 radius3 speed2 =
               2 * impact_energy_of a radius3 speed2).
  { unfold impact_energy_of. rewrite Ek. change (1 - 0.5) with 0.5.
    apply mul_double_half_r; assumption. }
  assert (Eq2 : 9.8 * density a2 = 2 * (9.8 * density a)).
  { unfold a2. cbn [density with_density]. apply mul_double_r; assumption. }
  repeat split; try assumption.
  rewrite Ei, Eq2. unfold impact_energy_of. change (1 - 0.5) with 0.5.
  apply div_double; assumption.
Qed.

(** C9 as stated fails on the crater.  At the scenario of the specification
    (glibc's [pow]), doubling the density leaves the crater diameter at
    214.21222748780187 m: it changes neither by the factor 2^(1/3.4 - 1),
    which is 0.6130674216299654, nor by that factor relative to the
    energy-only term impact_energy^(1/3.4). *)
Lemma density_doubling_crater_counterexample :
  exists res res2 factor term term2,
    simulate_impact glibc scenario = Ok res /\
    simulate_impact glibc (with_density scenario (2 * density scenario)) = Ok res2 /\
    py_pow glibc 2 (1 / 3.4 - 1) = Ok (PyFloat factor) /\
    py_pow glibc (impact_energy_joules res) (1 / 3.4) = Ok (PyFloat term) /\
    py_pow glibc (impact_energy_joules res2) (1 / 3.4) = Ok (PyFloat term2) /\
    crater_diameter_meters res = 214.21222748780187 /\
    crater_diameter_meters res2 = 214.21222748780187 /\
    (factor * crater_diameter_meters res <? 0.62 * crater_diameter_meters res2) = true /\
    (crater_diameter_meters res2 =? factor * crater_diameter_meters res) = false /\
    (crater_diameter_meters res2 / term2 =?
       factor * (crater_diameter_meters res / term)) = false /\
    (factor * (crater_diameter_meters res / term) <?
       0.76 * (crater_diameter_meters res2 / term2)) = true.
Proof.
  exists (estimate scenario 1000 400000000 1338.8264217987614 10.791205292859662).
  exists (estimate (with_density scenario (2 * density scenario)) 1000 400000000
            1338.8264217987614 13.596066702210855).
  exists 0.6130674216299654, 27602.2241064413, 33844.04872837689.
  repeat split; vm_compute; reflexivity.
Qed.

(** C9, amended.  Take an input on which the simulate computation returns,
    with density, [9.8 * density], mass and kinetic energy between 2^-1021
    and 2^1022 in absolute value.  With the density doubled, and radius,
    speed and angle held fixed, the computation returns as soon as its
    shockwave power is a float; the returned mass, kinetic_energy and
    impact_energy are each exactly 2 times the former ones, and the returned
    crater_diameter is the same float: the density cancels inside the crater
    law. *)
Theorem density_doubling (lm : Libm) (a : AsteroidParams) (res : SimulationResult)
    (shock_pow2 : float) :
  simulate_impact lm a = Ok res ->
  in_range (density a) = true ->
  in_range (9.8 * density a) = true ->
  in_range (mass_kg res) = true ->
  in_range (kinetic_energy_joules res) = true ->
  py_pow lm (2 * impact_energy_joules res / 1e12) (1 / 3) = Ok (PyFloat shock_pow2) ->
  exists res2,
    simulate_impact lm (with_density a (2 * density a)) = Ok res2 /\
    mass_kg res2 = 2 * mass_kg res /\
    kinetic_energy_joules res2 = 2 * kinetic_energy_joules res /\
    impact_energy_joules res2 = 2 * impact_energy_joules res /\
    crater_diameter_meters res2 = crater_diameter_meters res.
Proof.
  intros H Hd Hq Hm Hk Hs2.
  destruct (simulate_impact_Ok_inv lm a res H)
    as (radius3 & speed2 & crater_pow & shock_pow & Hr & Hs & _ & Hc & _ & ->).
  cbn [mass_kg kinetic_energy_joules impact_energy_joules crater_diameter_meters
       estimate] in *.
  destruct (doubled_density_figures a radius3 speed2 Hd Hq Hm Hk)
    as (Em & Ek & Ei & Eq2 & Ew).
  exists (estimate (with_density a (2 * density a)) radius3 speed2 crater_pow shock_pow2).
  split.
  - apply simulate_impact_Ok_intro.
    + exact Hr.
    + exact Hs.
    + rewrite Eq2. apply in_range_double_nonzero. exact Hq.
    + rewrite Ew. exact Hc.
    + rewrite Ei. exact Hs2.
  - cbn [mass_kg kinetic_energy_joules impact_energy_joules crater_diameter_meters
         estimate].
    repeat split; assumption.
Qed.

Lemma density_doubling_witness :
  exists res res2,
    simulate_impact glibc scenario = Ok res /\
    simulate_impact glibc (with_density scenario (2 * 3000)) = Ok res2 /\
    mass_kg res2 = 2 * mass_kg res /\
    kinetic_energy_joules res2 = 2 * kinetic_energy_joules res /\
    impact_energy_joules res2 = 2 * impact_energy_joules res /\
    crater_diameter_meters res2 = crater_diameter_meters res.
Proof.
  exists (estimate scenario 1000 400000000 1338.8264217987614 10.791205292859662).
  destruct (density_doubling glibc scenario
              (estimate scenario 1000 400000000 1338.8264217987614 10.791205292859662)
              13.596066702210855) as (res2 & H2 & Hm & Hk & Hi & Hc);
    try (vm_compute; reflexivity).
  exists res2. repeat split; assumption.
Defined.

(** ** The location resolver *)

Lemma get_impact_country_outcome (rt : Runtime) (lat lon : float) :
  outcome (get_impact_country rt lat lon) =
  Ok (match named_country (geolocator_reverse rt lat lon) with
      | Some country => country
      | None => VStr unknown_location
      end).
Proof.
  unfold get_impact_country, call_reverse, named_country, address_of,
    dict_get_default, dict_getitem.
  destruct (geolocator_reverse rt lat lon) as [[loc |] | e]; try reflexivity.
  cbn.
  destruct (dict_get (raw loc) "address") as [[| b | z | x | s | l | d] |];
    try reflexivity.
  - cbn. destruct (str_contains "country" s); reflexivity.
  - cbn. destruct (existsb (is_str "country") l); reflexivity.
  - cbn. unfold dict_getitem. destruct (dict_get d "country"); reflexivity.
Qed.

Lemma geocoding_failed_named_country (r : PyResult (option Location)) :
  geocoding_failed r -> named_country r = None.
Proof.
  intros [e | | loc addr Ha Hc | loc Hn]; try reflexivity.
  - simpl. rewrite Ha. exact Hc.
  - simpl. destruct (address_of loc) as [| | | | | | addr] eqn:E; try reflexivity.
    exfalso. apply (Hn addr). reflexivity.
Qed.

(** The resolver never raises. *)
Lemma get_impact_country_total (rt : Runtime) (lat lon : float) :
  exists t country, get_impact_country rt lat lon = (t, Ok country).
Proof.
  assert (H := get_impact_country_outcome rt lat lon).
  destruct (get_impact_country rt lat lon) as [t r]. simpl in H.
  exists t. eexists. rewrite H. reflexivity.
Qed.

(** The resolver does not talk to the LLM upstream. *)
Lemma get_impact_country_trace (rt : Runtime) (lat lon : float) (p : string) :
  ~ In (GenerateContent p) (trace (get_impact_country rt lat lon)).
Proof.
  unfold get_impact_country, call_reverse, dict_get_default, dict_getitem.
  destruct (geolocator_reverse rt lat lon) as [[loc |] | e];
    try (cbn; intuition discriminate).
  cbn.
  destruct (dict_get (raw loc) "address") as [[| b | z | x | s | l | d] |];
    try (cbn; intuition discriminate).
  - cbn. destruct (str_contains "country" s); cbn; intuition discriminate.
  - cbn. destruct (existsb (is_str "country") l); cbn; intuition discriminate.
  - cbn. unfold dict_getitem. destruct (dict_get d "country"); cbn; intuition discriminate.
Qed.

(** C6. If the reverse-geocoding upstream fails (it raises, returns no
    result, or returns an address without a country field), the resolver
    returns the string "an unknown location (likely an ocean)" and raises
    nothing. *)
Theorem geocoding_failure_falls_back (rt : Runtime) (lat lon : float) :
  geocoding_failed (geolocator_reverse rt lat lon) ->
  outcome (get_impact_country rt lat lon) = Ok (VStr unknown_location).
Proof.
  intros H. rewrite get_impact_country_outcome.
  rewrite (geocoding_failed_named_country _ H). reflexivity.
Qed.

Lemma geocoding_failure_falls_back_witness :
  outcome (get_impact_country (sea_runtime None) 30 (-40)) =
  Ok (VStr "an unknown location (likely an ocean)").
Proof.
  apply (geocoding_failure_falls_back (sea_runtime None) 30 (-40)).
  simpl. eapply no_country_field; reflexivity.
Defined.

(** When the upstream names a country, the resolver returns it. *)
Lemma get_impact_country_found (rt : Runtime) (lat lon : float) (country : PyVal) :
  named_country (geolocator_reverse rt lat lon) = Some country ->
  outcome (get_impact_country rt lat lon) = Ok country.
Proof.
  intros H. rewrite get_impact_country_outcome, H. reflexivity.
Qed.

(** ** The advisory generator *)

Lemma model_unconfigured (rt : Runtime) :
  GEMINI_API_KEY rt = None \/ GEMINI_API_KEY rt = Some "YOUR_GEMINI_API_KEY" ->
  model rt = None.
Proof.
  unfold model. intros [H | H]; rewrite H; reflexivity.
Qed.

Lemma get_llm_suggestions_configured (rt : Runtime) (m : GenerativeModel)
    (impact_energy crater_diameter shockwave_radius : float) (country : PyVal) :
  model rt = Some m ->
  get_llm_suggestions rt impact_energy crater_diameter shockwave_radius country =
  ([GenerateContent
      (report_prompt rt impact_energy crater_diameter shockwave_radius country)],
   Ok (match llm_outcome rt m
               (report_prompt rt impact_energy crater_diameter shockwave_radius country)
       with
       | Ok report_text => report_text
       | Raise e => gemini_error e
       end)).
Proof.
  intros Hm. unfold get_llm_suggestions, llm_outcome. rewrite Hm.
  rewrite (py_div_nonzero impact_energy 4.184e15) by reflexivity.
  rewrite (py_div_nonzero crater_diameter 1000) by reflexivity.
  rewrite (py_div_nonzero shockwave_radius 1000) by reflexivity.
  cbn [lift ebind app]. fold (report_prompt rt impact_energy crater_diameter
                                shockwave_radius country).
  unfold call_generate_content, try_except, ebind, lift, eret.
  destruct (generate_content rt m _) as [response | e]; cbn.
  - destruct (text response); reflexivity.
  - reflexivity.
Qed.

(** The generator never raises. *)
Lemma get_llm_suggestions_total (rt : Runtime)
    (impact_energy crater_diameter shockwave_radius : float) (country : PyVal) :
  exists t report_text,
    get_llm_suggestions rt impact_energy crater_diameter shockwave_radius country =
    (t, Ok report_text).
Proof.
  destruct (model rt) as [m |] eqn:Hm.
  - rewrite (get_llm_suggestions_configured rt m) by exact Hm.
    do 2 eexists. reflexivity.
  - unfold get_llm_suggestions. rewrite Hm. do 2 eexists. reflexivity.
Qed.

(** C7. With the credential absent or equal to the placeholder value, the
    generator returns the fixed placeholder text for every impact_energy,
    crater_diameter, shockwave_radius and country, and its trace is empty:
    it makes no call to the LLM upstream. *)
Theorem unconfigured_returns_placeholder (rt : Runtime)
    (impact_energy crater_diameter shockwave_radius : float) (country : PyVal) :
  GEMINI_API_KEY rt = None \/ GEMINI_API_KEY rt = Some "YOUR_GEMINI_API_KEY" ->
  outcome (get_llm_suggestions rt impact_energy crater_diameter shockwave_radius country)
    = Ok placeholder_report /\
  trace (get_llm_suggestions rt impact_energy crater_diameter shockwave_radius country)
    = [].
Proof.
  intros H. unfold get_llm_suggestions.
  rewrite (model_unconfigured rt H). split; reflexivity.
Qed.

Lemma unconfigured_returns_placeholder_witness :
  outcome (get_llm_suggestions (sea_runtime (Some "YOUR_GEMINI_API_KEY")) 1 3 4
             (VStr "Egypt")) = Ok placeholder_report /\
  trace (get_llm_suggestions (sea_runtime (Some "YOUR_GEMINI_API_KEY")) 1 3 4
           (VStr "Egypt")) = [].
Proof.
  apply (unconfigured_returns_placeholder
           (sea_runtime (Some "YOUR_GEMINI_API_KEY")) 1 3 4 (VStr "Egypt")).
  right. reflexivity.
Defined.

(** ** The report handler *)

Lemma generate_report_with_coords (rt : Runtime) (request : ReportRequest) (lat lng : float) :
  dict_get (impact_coords request) "lat" = Some lat ->
  dict_get (impact_coords request) "lng" = Some lng ->
  exists t country,
    get_impact_country rt lat lng = (t, Ok country) /\
    generate_report rt request =
    ((t ++ trace (get_llm_suggestions rt
                    (impact_energy_joules (simulation_result request))
                    (crater_diameter_meters (simulation_result request))
                    (shockwave_radius_meters (simulation_result request))
                    country))%list,
     match outcome (get_llm_suggestions rt
                      (impact_energy_joules (simulation_result request))
                      (crater_diameter_meters (simulation_result request))
                      (shockwave_radius_meters (simulation_result request))
                      country)
     with
     | Ok llm_suggestions => Ok {| report := llm_suggestions |}
     | Raise e => Raise e
     end).
Proof.
  intros Hlat Hlng.
  destruct (get_impact_country_total rt lat lng) as (t & country & Hc).
  exists t, country. split; [exact Hc |].
  unfold generate_report, dict_getitem. rewrite Hlat, Hlng.
  cbn [lift ebind app]. rewrite Hc. cbn [ebind].
  destruct (get_llm_suggestions_total rt
              (impact_energy_joules (simulation_result request))
              (crater_diameter_meters (simulation_result request))
              (shockwave_radius_meters (simulation_result request))
              country) as (t2 & report_text & Hl).
  rewrite Hl. cbn. rewrite app_nil_r. reflexivity.
Qed.

(** With both coordinates in the body, the handler answers [{report: ...}]. *)
Lemma generate_report_total_with_coords (rt : Runtime) (request : ReportRequest)
    (lat lng : float) :
  dict_get (impact_coords request) "lat" = Some lat ->
  dict_get (impact_coords request) "lng" = Some lng ->
  exists report_text,
    outcome (generate_report rt request) = Ok {| report := report_text |}.
Proof.
  intros Hlat Hlng.
  destruct (generate_report_with_coords rt request lat lng Hlat Hlng)
    as (t & country & _ & H).
  rewrite H. cbn [outcome snd].
  destruct (get_llm_suggestions_total rt
              (impact_energy_joules (simulation_result request))
              (crater_diameter_meters (simulation_result request))
              (shockwave_radius_meters (simulation_result request))
              country) as (t2 & report_text & Hl).
  rewrite Hl. exists report_text. reflexivity.
Qed.

(** Without a coordinate the handler does nothing and raises. *)
Lemma generate_report_without_coords (rt : Runtime) (request : ReportRequest) :
  dict_get (impact_coords request) "lat" = None \/
  dict_get (impact_coords request) "lng" = None ->
  trace (generate_report rt request) = [].
Proof.
  unfold generate_report, dict_getitem.
  destruct (dict_get (impact_coords request) "lat") as [lat |];
    destruct (dict_get (impact_coords request) "lng") as [lng |];
    intros [H | H]; try discriminate H; reflexivity.
Qed.

(** C5, the divergence.  A body whose impact_coords is a dict without the
    key lat (or with lat but without lng) passes the validation of
    [ReportRequest], and on it the handler returns no report: it raises
    KeyError before any upstream is called. *)
Theorem generate_report_raises_without_coords (rt : Runtime) (sr : SimulationResult)
    (lat : float) :
  generate_report rt {| simulation_result := sr; impact_coords := [] |}
    = ([], Raise (KeyError "lat")) /\
  generate_report rt {| simulation_result := sr; impact_coords := [("lat", lat)] |}
    = ([], Raise (KeyError "lng")).
Proof.
  split; reflexivity.
Qed.

(** C8. In the Configured state, when the call the generator makes to the
    LLM upstream fails with an exception e, the generator raises nothing and
    returns the text "An error occurred while generating the report from
    Gemini: " followed by str(e), and the handler still answers
    [{report: text}] with that text. *)
Theorem llm_failure_is_reported (rt : Runtime) (m : GenerativeModel) :
  model rt = Some m ->
  (forall impact_energy crater_diameter shockwave_radius country p e,
     In (GenerateContent p)
        (trace (get_llm_suggestions rt impact_energy crater_diameter
                  shockwave_radius country)) ->
     llm_outcome rt m p = Raise e ->
     outcome (get_llm_suggestions rt impact_energy crater_diameter
                shockwave_radius country) =
     Ok ("An error occurred while generating the report from Gemini: " ++ exc_str e)) /\
  (forall request p e,
     In (GenerateContent p) (trace (generate_report rt request)) ->
     llm_outcome rt m p = Raise e ->
     outcome (generate_report rt request) =
     Ok {| report :=
             "An error occurred while generating the report from Gemini: "
               ++ exc_str e |}).
Proof.
  intros Hm.
  assert (Hgen : forall impact_energy crater_diameter shockwave_radius country p e,
     In (GenerateContent p)
        (trace (get_llm_suggestions rt impact_energy crater_diameter
                  shockwave_radius country)) ->
     llm_outcome rt m p = Raise e ->
     outcome (get_llm_suggestions rt impact_energy crater_diameter
                shockwave_radius country) =
     Ok ("An error occurred while generating the report from Gemini: " ++ exc_str e)).
  { intros ie cd sr country p e Hin Hfail.
    rewrite (get_llm_suggestions_configured rt m) in Hin |- * by exact Hm.
    cbn in Hin. destruct Hin as [Hin | []]. injection Hin as Hp.
    cbn. rewrite Hp, Hfail. reflexivity. }
  split; [exact Hgen |].
  intros request p e Hin Hfail.
  destruct (dict_get (impact_coords request) "lat") as [lat |] eqn:Hlat;
    [| rewrite generate_report_without_coords in Hin by (left; exact Hlat);
       destruct Hin].
  destruct (dict_get (impact_coords request) "lng") as [lng |] eqn:Hlng;
    [| rewrite generate_report_without_coords in Hin by (right; exact Hlng);
       destruct Hin].
  destruct (generate_report_with_coords rt request lat lng Hlat Hlng)
    as (t & country & Hc & Hr).
  rewrite Hr in Hin |- *. cbn [trace outcome fst snd] in Hin |- *.
  apply in_app_or in Hin. destruct Hin as [Hin | Hin].
  - exfalso. apply (get_impact_country_trace rt lat lng p).
    rewrite Hc. exact Hin.
  - rewrite (Hgen _ _ _ _ p e Hin Hfail). reflexivity.
Qed.

Lemma llm_failure_is_reported_witness :
  outcome (get_llm_suggestions (sea_runtime (Some "AIza-key")) 1 3 4 (VStr "Egypt"))
    = Ok "An error occurred while generating the report from Gemini: 503 Service Unavailable" /\
  outcome (generate_report (sea_runtime (Some "AIza-key")) sample_request)
    = Ok {| report :=
              "An error occurred while generating the report from Gemini: 503 Service Unavailable" |}.
Proof.
  pose (rt := sea_runtime (Some "AIza-key")).
  pose (m := {| api_key := "AIza-key"; model_name := "models/gemini-2.5-flash" |}).
  assert (Hm : model rt = Some m) by reflexivity.
  destruct (llm_failure_is_reported rt m Hm) as [Hgen Hreq].
  split.
  - apply (Hgen 1 3 4 (VStr "Egypt") (report_prompt rt 1 3 4 (VStr "Egypt"))
             (UpstreamError "503 Service Unavailable")).
    + rewrite (get_llm_suggestions_configured rt m) by exact Hm.
      left. reflexivity.
    + reflexivity.
  - destruct (generate_report_with_coords rt sample_request 30 (-40))
      as (t & country & _ & Hr); [reflexivity | reflexivity |].
    apply (Hreq sample_request (report_prompt rt 1 3 4 country)
             (UpstreamError "503 Service Unavailable")).
    + rewrite Hr. cbn [trace fst]. apply in_or_app. right.
      rewrite (get_llm_suggestions_configured rt m) by exact Hm.
      left. reflexivity.
    + reflexivity.
Defined.

(** C10. The handler reads impact_energy_joules, crater_diameter_meters and
    shockwave_radius_meters of the submitted result and nothing else of it:
    two requests that agree on these three fields and on impact_coords have,
    against the same upstreams, the same outcome and the same trace. *)
Theorem report_reads_three_fields (rt : Runtime) (r1 r2 : ReportRequest) :
  impact_energy_joules (simulation_result r1)
    = impact_energy_joules (simulation_result r2) ->
  crater_diameter_meters (simulation_result r1)
    = crater_diameter_meters (simulation_result r2) ->
  shockwave_radius_meters (simulation_result r1)
    = shockwave_radius_meters (simulation_result r2) ->
  impact_coords r1 = impact_coords r2 ->
  generate_report rt r1 = generate_report rt r2.
Proof.
  intros He Hc Hs Hcoords. unfold generate_report.
  rewrite He, Hc, Hs, Hcoords. reflexivity.
Qed.

Lemma report_reads_three_fields_witness :
  generate_report (sea_runtime (Some "AIza-key")) sample_request =
  generate_report (sea_runtime (Some "AIza-key")) sample_request_edited.
Proof.
  apply (report_reads_three_fields (sea_runtime (Some "AIza-key"))
           sample_request sample_request_edited); reflexivity.
Defined.

(** ** Worked examples *)

Example model_of_a_key :
  model (sea_runtime (Some "AIza-key")) =
  Some {| api_key := "AIza-key"; model_name := "models/gemini-2.5-flash" |}.
Proof. reflexivity. Qed.

Example model_of_the_empty_key : model (sea_runtime (Some EmptyString)) = None.
Proof. reflexivity. Qed.

Example resolver_names_egypt :
  get_impact_country (land_runtime None) 30 31 = ([Reverse 30 31], Ok (VStr "Egypt")).
Proof. reflexivity. Qed.

Example resolver_logs_the_exception :
  get_impact_country (broken_runtime (Raise (UpstreamError "Service timed out"))) 30 31 =
  ([Reverse 30 31; Stdout "Geocoding error: Service timed out"],
   Ok (VStr "an unknown location (likely an ocean)")).
Proof. reflexivity. Qed.

Example resolver_survives_a_string_address :
  get_impact_country
    (broken_runtime (Ok (Some {| raw := [("address", VStr "no country here")] |})))
    30 31 =
  ([Reverse 30 31; Stdout "Geocoding error: string indices must be integers"],
   Ok (VStr "an unknown location (likely an ocean)")).
Proof. reflexivity. Qed.

Example report_on_land :
  outcome (generate_report (land_runtime (Some "AIza-key")) sample_request) =
  Ok {| report := "Evacuate the Nile delta." |}.
Proof.
  destruct (generate_report_with_coords (land_runtime (Some "AIza-key"))
              sample_request 30 (-40)) as (t & country & _ & Hr);
    [reflexivity | reflexivity |].
  rewrite Hr. cbn [outcome snd].
  rewrite (get_llm_suggestions_configured (land_runtime (Some "AIza-key"))
             {| api_key := "AIza-key"; model_name := "models/gemini-2.5-flash" |})
    by reflexivity.
  reflexivity.
Qed.

(** * Further properties of the code *)

(** ** The calculator: where it returns and where it raises *)


(** X2. With density zero (0.0 or -0.0), and [radius ** 3] and [speed ** 2]
    in the binary64 range, the simulate computation raises
    ZeroDivisionError at the crater law. *)
Theorem simulate_zero_density_raises (lm : Libm) (a : AsteroidParams)
    (radius3 speed2 : float) :
  py_pow_int lm (radius a) 3 = Ok radius3 ->
  py_pow_int lm (speed a) 2 = Ok speed2 ->
  (density a =? 0) = true ->
  simulate_impact lm a = Raise (ZeroDivisionError "float division by zero").
Proof.
  intros Hr Hs Hd. rewrite simulate_impact_steps.
  rewrite Hr. cbn [bind]. rewrite Hs. cbn [bind].
  rewrite py_div_zero; [reflexivity |].
  destruct (eqb_zero_cases (density a) Hd) as [-> | ->]; reflexivity.
Qed.

Lemma simulate_zero_density_raises_witness :
  simulate_impact glibc (with_density scenario 0) =
  Raise (ZeroDivisionError "float division by zero").
Proof.
  apply (simulate_zero_density_raises glibc (with_density scenario 0) 1000 400000000);
    reflexivity.
Defined.

(** ** The calculator: mirrored inputs *)

(** X5. The sign of the speed does not matter: the computation has the same
    outcome for a speed and for its opposite. *)
Theorem simulate_speed_sign (lm : Libm) (a : AsteroidParams) :
  simulate_impact lm (with_speed a (- speed a)) = simulate_impact lm a.
Proof.
  rewrite !simulate_impact_steps. cbn [radius density speed with_speed].
  rewrite py_pow_int_opp_2. reflexivity.
Qed.

(** ** The calculator at the edges of binary64 *)

(** A cube that underflows is no error: the computation returns six
    zeros. *)
Example simulate_underflow :
  simulate_impact glibc (with_radius scenario 1e-110) =
  Ok {| mass_kg := 0; kinetic_energy_joules := 0; impact_energy_joules := 0;
        crater_diameter_meters := 0; shockwave_radius_meters := 0;
        energy_equivalent_kt_tnt := 0 |}.
Proof. vm_compute. reflexivity. Qed.

(** With the radius negated the energies are -0.0, and the two fractional
    powers of -0.0 are 0.0: no complex number appears. *)
Example simulate_negative_underflow :
  simulate_impact glibc (with_radius scenario (-1e-110)) =
  Ok {| mass_kg := neg_zero; kinetic_energy_joules := neg_zero;
        impact_energy_joules := neg_zero;
        crater_diameter_meters := 0; shockwave_radius_meters := 0;
        energy_equivalent_kt_tnt := neg_zero |}.
Proof. vm_compute. reflexivity. Qed.

(** A negative radius of ordinary size takes the crater law out of the
    floats, and the response model refuses the result. *)
Example simulate_negative_radius (lm : Libm) :
  libm_pow lm 10 3 = 1000 ->
  libm_pow lm 20000 2 = 400000000 ->
  is_infinity (libm_pow lm 42742757191.69786 (1 / 3.4)) = false ->
  is_infinity (libm_pow lm 1256.6370614359173 (1 / 3)) = false ->
  simulate_impact lm (with_radius scenario (-10)) = Raise ResponseValidationError.
Proof.
  intros H3 H2 Hc Hs. rewrite simulate_impact_steps.
  cbn [radius speed density with_radius scenario].
  assert (E3 : py_pow_int lm (-10) 3 = Ok (-1000)).
  { unfold py_pow_int.
    assert (E : float_pow lm (-10) (float_of_int 3) =
                let ix := libm_pow lm 10 3 in
                if is_infinity ix then Raise range_error else Ok (- ix)) by reflexivity.
    rewrite E. cbv zeta. rewrite H3. reflexivity. }
  assert (E2 : py_pow_int lm 20000 2 = Ok 400000000).
  { unfold py_pow_int.
    assert (E : float_pow lm 20000 (float_of_int 2) =
                let ix := libm_pow lm 20000 2 in
                if is_infinity ix then Raise range_error else Ok ix) by reflexivity.
    rewrite E. cbv zeta. rewrite H2. reflexivity. }
  rewrite E3. cbn [bind]. rewrite E2. cbn [bind].
  rewrite py_div_nonzero by reflexivity. cbn [bind].
  match goal with
  | |- context [py_pow lm ?x (1 / 3.4)] =>
      change (py_pow lm x (1 / 3.4))
        with (if is_infinity (libm_pow lm 42742757191.69786 (1 / 3.4))
              then Raise (OverflowError "complex exponentiation")
              else Ok PyComplex)
  end.
  rewrite Hc. cbn [bind].
  match goal with
  | |- context [py_pow lm ?x (1 / 3)] =>
      change (py_pow lm x (1 / 3))
        with (if is_infinity (libm_pow lm 1256.6370614359173 (1 / 3))
              then Raise (OverflowError "complex exponentiation")
              else Ok PyComplex)
  end.
  rewrite Hs. reflexivity.
Qed.

(** Outside the range of C9 doubling the density is not a doubling of the
    figures: at radius 1, speed 1 and density 3e307 the crater diameter is
    0.0, and with the density doubled the mass overflows and the crater
    diameter is NaN. *)
Example density_doubling_out_of_range :
  in_range (9.8 * 3e307) = false /\
  simulate_impact glibc
    {| name := None; radius := 1; density := 3e307; speed := 1; angle := 45 |} =
  Ok {| mass_kg := 1.2566370614359171e+308;
        kinetic_energy_joules := 6.283185307179586e+307;
        impact_energy_joules := 3.141592653589793e+307;
        crater_diameter_meters := 0;
        shockwave_radius_meters := 3.155367569301782e+101;
        energy_equivalent_kt_tnt := 7.50858664815916e+294 |} /\
  forall lm : Libm,
    simulate_impact lm
      {| name := None; radius := 1; density := 2 * 3e307; speed := 1; angle := 45 |} =
    Ok {| mass_kg := infinity; kinetic_energy_joules := infinity;
          impact_energy_joules := infinity;
          crater_diameter_meters := nan;
          shockwave_radius_meters := infinity;
          energy_equivalent_kt_tnt := infinity |}.
Proof.
  split; [reflexivity |]. split; [vm_compute; reflexivity |].
  intros lm. reflexivity.
Qed.

(** ** The location resolver: every upstream behaviour *)

Ltac resolver_cases rt lat lon :=
  unfold get_impact_country, call_reverse, dict_get_default, dict_getitem;
  destruct (geolocator_reverse rt lat lon) as [[? |] | ?]; cbn;
  try match goal with
      | |- context [dict_get (raw ?l) "address"] =>
          destruct (dict_get (raw l) "address") as [[] |]; cbn
      end;
  try match goal with
      | |- context [str_contains ?n ?h] => destruct (str_contains n h); cbn
      end;
  try match goal with
      | |- context [existsb ?f ?l] => destruct (existsb f l); cbn
      end;
  unfold dict_getitem;
  try match goal with
      | |- context [dict_get ?d "country"] => destruct (dict_get d "country"); cbn
      end.

(** X12. Whatever the geocoder does (answer, no answer, malformed answer,
    exception), the resolver raises nothing, calls the geocoder exactly
    once, first and with the coordinates it was given, and writes at most
    one line, a "Geocoding error: ..." line, to the console. *)
Theorem resolver_single_call_no_raise (rt : Runtime) (lat lon : float) :
  exists log country,
    get_impact_country rt lat lon = (Reverse lat lon :: log, Ok country) /\
    (log = [] \/ exists msg, log = [Stdout ("Geocoding error: " ++ msg)]).
Proof.
  resolver_cases rt lat lon;
    do 2 eexists; (split; [reflexivity |]);
    first [left; reflexivity | right; eexists; reflexivity].
Qed.

(** X13. When the geocoder's answer has an address breakdown with a country
    field, the resolver returns that field's value as it is, after one
    geocoder call and with nothing written to the console. *)
Theorem resolver_returns_named_country (rt : Runtime) (lat lon : float)
    (loc : Location) (addr : dict PyVal) (country : PyVal) :
  geolocator_reverse rt lat lon = Ok (Some loc) ->
  dict_get (raw loc) "address" = Some (VDict addr) ->
  dict_get addr "country" = Some country ->
  get_impact_country rt lat lon = ([Reverse lat lon], Ok country).
Proof.
  intros Hrev Haddr Hc.
  unfold get_impact_country, call_reverse, dict_get_default, dict_getitem.
  rewrite Hrev. cbn. rewrite Haddr. cbn. unfold dict_getitem. rewrite Hc.
  reflexivity.
Qed.

Lemma resolver_returns_named_country_witness :
  get_impact_country (land_runtime None) 30 31 = ([Reverse 30 31], Ok (VStr "Egypt")).
Proof.
  apply (resolver_returns_named_country (land_runtime None) 30 31
           {| raw := [("address", VDict [("city", VStr "Cairo");
                                         ("country", VStr "Egypt")])] |}
           [("city", VStr "Cairo"); ("country", VStr "Egypt")]);
    reflexivity.
Defined.

(** X14. When the geocoder raises, the resolver writes the line
    "Geocoding error: " followed by the exception's text to the console and
    returns the fallback string. *)
Theorem resolver_logs_upstream_exception (rt : Runtime) (lat lon : float) (e : PyError) :
  geolocator_reverse rt lat lon = Raise e ->
  get_impact_country rt lat lon =
  ([Reverse lat lon; Stdout ("Geocoding error: " ++ exc_str e)],
   Ok (VStr unknown_location)).
Proof.
  intros Hrev. unfold get_impact_country, call_reverse. rewrite Hrev. reflexivity.
Qed.

Lemma resolver_logs_upstream_exception_witness :
  get_impact_country (broken_runtime (Raise (UpstreamError "Service timed out"))) 30 31 =
  ([Reverse 30 31; Stdout "Geocoding error: Service timed out"],
   Ok (VStr unknown_location)).
Proof.
  apply (resolver_logs_upstream_exception
           (broken_runtime (Raise (UpstreamError "Service timed out"))) 30 31
           (UpstreamError "Service timed out")).
  reflexivity.
Defined.

(** X15. The open-sea cases are silent: when the geocoder has no result, or
    its answer has no address, or an address breakdown without a country
    field, the resolver returns the fallback string and writes nothing to
    the console. *)
Theorem resolver_silent_fallback (rt : Runtime) (lat lon : float) :
  geolocator_reverse rt lat lon = Ok None \/
  (exists loc,
     geolocator_reverse rt lat lon = Ok (Some loc) /\
     (dict_get (raw loc) "address" = None \/
      exists addr,
        dict_get (raw loc) "address" = Some (VDict addr) /\
        dict_get addr "country" = None)) ->
  get_impact_country rt lat lon = ([Reverse lat lon], Ok (VStr unknown_location)).
Proof.
  unfold get_impact_country, call_reverse, dict_get_default, dict_getitem.
  intros [Hrev | (loc & Hrev & [Haddr | (addr & Haddr & Hc)])]; rewrite Hrev.
  - reflexivity.
  - cbn. rewrite Haddr. reflexivity.
  - cbn. rewrite Haddr. cbn. rewrite Hc. reflexivity.
Qed.

Lemma resolver_silent_fallback_witness :
  get_impact_country (sea_runtime None) 30 (-40) =
  ([Reverse 30 (-40)], Ok (VStr unknown_location)).
Proof.
  apply (resolver_silent_fallback (sea_runtime None) 30 (-40)).
  right. eexists. split; [reflexivity |].
  right. eexists. split; reflexivity.
Defined.

(** ** The advisory generator: configuration, success, prompt *)

(** X16. The generator is in the Unconfigured state exactly when the
    credential is absent, empty, or the placeholder value. *)
Theorem model_unconfigured_iff (rt : Runtime) :
  model rt = None <->
  GEMINI_API_KEY rt = None \/
  GEMINI_API_KEY rt = Some EmptyString \/
  GEMINI_API_KEY rt = Some "YOUR_GEMINI_API_KEY".
Proof.
  unfold model. destruct (GEMINI_API_KEY rt) as [key |].
  - destruct (String.eqb_spec key EmptyString) as [E1 | N1];
      [subst; cbn; intuition congruence |].
    destruct (String.eqb_spec key "YOUR_GEMINI_API_KEY") as [E2 | N2];
      [subst; cbn; intuition congruence |].
    cbn. split; [discriminate |].
    intros [H | [H | H]]; [discriminate H | |]; injection H as H; contradiction.
  - split; [left; reflexivity | reflexivity].
Qed.

(** X17. In the Configured state, when the LLM upstream answers with a text,
    the generator returns that text verbatim, after exactly one call to the
    upstream. *)
Theorem configured_returns_upstream_text (rt : Runtime) (m : GenerativeModel)
    (impact_energy crater_diameter shockwave_radius : float) (country : PyVal)
    (response : GenerateContentResponse) (report_text : string) :
  model rt = Some m ->
  generate_content rt m
    (report_prompt rt impact_energy crater_diameter shockwave_radius country)
    = Ok response ->
  text response = Ok report_text ->
  get_llm_suggestions rt impact_energy crater_diameter shockwave_radius country =
  ([GenerateContent
      (report_prompt rt impact_energy crater_diameter shockwave_radius country)],
   Ok report_text).
Proof.
  intros Hm Hgen Htext.
  rewrite (get_llm_suggestions_configured rt m) by exact Hm.
  unfold llm_outcome. rewrite Hgen. cbn [bind]. rewrite Htext. reflexivity.
Qed.

Lemma configured_returns_upstream_text_witness :
  get_llm_suggestions (land_runtime (Some "AIza-key")) 1 3 4 (VStr "Egypt") =
  ([GenerateContent (report_prompt (land_runtime (Some "AIza-key")) 1 3 4 (VStr "Egypt"))],
   Ok "Evacuate the Nile delta.").
Proof.
  apply (configured_returns_upstream_text (land_runtime (Some "AIza-key"))
           {| api_key := "AIza-key"; model_name := "models/gemini-2.5-flash" |}
           1 3 4 (VStr "Egypt") {| text := Ok "Evacuate the Nile delta." |});
    reflexivity.
Defined.

(** X18. Whatever the configuration and whatever the LLM upstream does, the
    generator raises nothing and calls the upstream at most once. *)
Theorem generator_no_raise_one_call (rt : Runtime)
    (impact_energy crater_diameter shockwave_radius : float) (country : PyVal) :
  exists t report_text,
    get_llm_suggestions rt impact_energy crater_diameter shockwave_radius country
      = (t, Ok report_text) /\
    (t = [] \/ exists prompt, t = [GenerateContent prompt]).
Proof.
  destruct (model rt) as [m |] eqn:Hm.
  - rewrite (get_llm_suggestions_configured rt m) by exact Hm.
    do 2 eexists. split; [reflexivity |]. right. eexists. reflexivity.
  - unfold get_llm_suggestions. rewrite Hm.
    do 2 eexists. split; [reflexivity |]. left. reflexivity.
Qed.

Lemma prefix_refl (n : string) : String.prefix n n = true.
Proof.
  induction n as [| c n IH]; simpl; [reflexivity |].
  destruct (ascii_dec c c) as [_ | N]; [exact IH | contradiction].
Qed.

Lemma prefix_app_left (n a b : string) :
  String.prefix n a = true -> String.prefix n (a ++ b) = true.
Proof.
  revert a. induction n as [| c n IH]; intros a H;
    [destruct (a ++ b)%string; reflexivity |].
  destruct a as [| c' a]; simpl in *; [discriminate H |].
  destruct (ascii_dec c c'); [apply IH; exact H | discriminate H].
Qed.

Lemma str_contains_self (n : string) : str_contains n n = true.
Proof.
  destruct n as [| c n]; [reflexivity |].
  cbn [str_contains]. rewrite prefix_refl. reflexivity.
Qed.

Lemma str_contains_app_left (n a b : string) :
  str_contains n a = true -> str_contains n (a ++ b) = true.
Proof.
  induction a as [| c a IH]; intros H.
  - cbn in H. rewrite Bool.orb_false_r in H.
    destruct n as [| c n]; [| discriminate H].
    destruct b; reflexivity.
  - cbn [str_contains] in H. apply Bool.orb_true_iff in H.
    change ((String c a ++ b)%string) with (String c (a ++ b)).
    cbn [str_contains]. apply Bool.orb_true_iff.
    destruct H as [H | H].
    + left. apply (prefix_app_left n (String c a) b H).
    + right. apply IH. exact H.
Qed.

Lemma str_contains_app_right (n a b : string) :
  str_contains n b = true -> str_contains n (a ++ b) = true.
Proof.
  intros H. induction a as [| c a IH]; [exact H |].
  change ((String c a ++ b)%string) with (String c (a ++ b)).
  cbn [str_contains]. rewrite IH. apply Bool.orb_true_r.
Qed.

Lemma str_contains_lines (n l : string) (ls : list string) :
  In l ls -> str_contains n l = true -> str_contains n (lines ls) = true.
Proof.
  unfold lines. intros Hin Hl. induction ls as [| x xs IH]; [destruct Hin |].
  destruct xs as [| y ys].
  - destruct Hin as [-> | []]. exact Hl.
  - change (String.concat nl (x :: y :: ys))
      with (x ++ nl ++ String.concat nl (y :: ys))%string.
    destruct Hin as [-> | Hin].
    + apply str_contains_app_left. exact Hl.
    + apply str_contains_app_right, str_contains_app_right. apply IH. exact Hin.
Qed.

(** X19. In the Configured state the one prompt sent to the LLM upstream
    carries the scenario: the line naming the country, the impact energy
    divided by 4.184e15 as megatons, and the crater diameter and the
    shockwave radius divided by 1000 as kilometres. *)
Theorem prompt_carries_scenario (rt : Runtime) (m : GenerativeModel)
    (impact_energy crater_diameter shockwave_radius : float) (country : PyVal) :
  model rt = Some m ->
  exists prompt,
    trace (get_llm_suggestions rt impact_energy crater_diameter shockwave_radius country)
      = [GenerateContent prompt] /\
    str_contains ("- Impact Location: " ++ py_format rt country) prompt = true /\
    str_contains ("- Impact Energy: " ++ format_2f rt (impact_energy / 4.184e15)
                   ++ " Megatons of TNT equivalent") prompt = true /\
    str_contains ("- Estimated Crater Diameter: "
                   ++ format_2f rt (crater_diameter / 1000) ++ " km") prompt = true /\
    str_contains ("- Estimated Shockwave Radius (for severe damage): "
                   ++ format_2f rt (shockwave_radius / 1000) ++ " km") prompt = true.
Proof.
  intros Hm.
  rewrite (get_llm_suggestions_configured rt m) by exact Hm.
  eexists. split; [reflexivity |].
  unfold report_prompt, prompt_text.
  repeat split.
  - eapply str_contains_lines.
    + do 4 right. left. reflexivity.
    + apply (str_contains_app_right _ "    "). apply str_contains_self.
  - eapply str_contains_lines.
    + do 5 right. left. reflexivity.
    + apply (str_contains_app_right _ "    "). apply str_contains_self.
  - eapply str_contains_lines.
    + do 6 right. left. reflexivity.
    + apply (str_contains_app_right _ "    "). apply str_contains_self.
  - eapply str_contains_lines.
    + do 7 right. left. reflexivity.
    + apply (str_contains_app_right _ "    "). apply str_contains_self.
Qed.

Lemma prompt_carries_scenario_witness :
  exists prompt,
    trace (get_llm_suggestions (land_runtime (Some "AIza-key")) 4.184e15 3000 4000
             (VStr "Egypt")) = [GenerateContent prompt] /\
    str_contains "- Impact Location: Egypt" prompt = true /\
    str_contains "- Impact Energy: 0.00 Megatons of TNT equivalent" prompt = true /\
    str_contains "- Estimated Crater Diameter: 0.00 km" prompt = true /\
    str_contains "- Estimated Shockwave Radius (for severe damage): 0.00 km" prompt
      = true.
Proof.
  apply (prompt_carries_scenario (land_runtime (Some "AIza-key"))
           {| api_key := "AIza-key"; model_name := "models/gemini-2.5-flash" |}
           4.184e15 3000 4000 (VStr "Egypt")).
  reflexivity.
Defined.

(** ** The report handler: the whole run *)

(** A run of the resolver: one geocoder call first, no LLM call. *)
Lemma get_impact_country_run (rt : Runtime) (lat lon : float) :
  exists log country,
    get_impact_country rt lat lon = (Reverse lat lon :: log, Ok country) /\
    forall p, ~ In (GenerateContent p) log.
Proof.
  resolver_cases rt lat lon;
    do 2 eexists; (split; [reflexivity |]); cbn; intuition discriminate.
Qed.

Lemma generate_report_run (rt : Runtime) (request : ReportRequest) (lat lng : float) :
  dict_get (impact_coords request) "lat" = Some lat ->
  dict_get (impact_coords request) "lng" = Some lng ->
  exists log country,
    get_impact_country rt lat lng = (Reverse lat lng :: log, Ok country) /\
    (forall p, ~ In (GenerateContent p) log) /\
    generate_report rt request =
    (Reverse lat lng ::
       (log ++ trace (get_llm_suggestions rt
                        (impact_energy_joules (simulation_result request))
                        (crater_diameter_meters (simulation_result request))
                        (shockwave_radius_meters (simulation_result request))
                        country))%list,
     match outcome (get_llm_suggestions rt
                      (impact_energy_joules (simulation_result request))
                      (crater_diameter_meters (simulation_result request))
                      (shockwave_radius_meters (simulation_result request))
                      country)
     with
     | Ok llm_suggestions => Ok {| report := llm_suggestions |}
     | Raise e => Raise e
     end).
Proof.
  intros Hlat Hlng.
  destruct (get_impact_country_run rt lat lng) as (log & country & Hc & Hlog).
  destruct (generate_report_with_coords rt request lat lng Hlat Hlng)
    as (t & country' & Hc' & Hr).
  rewrite Hc in Hc'. injection Hc' as <- <-.
  exists log, country. split; [exact Hc |]. split; [exact Hlog |].
  rewrite Hr. reflexivity.
Qed.

(** X20. When impact_coords holds both lat and lng, the handler answers
    {report: text} whatever the two upstreams do, and the first thing it
    does is one geocoder call with exactly these two coordinates. *)
Theorem report_answers_with_coords (rt : Runtime) (request : ReportRequest)
    (lat lng : float) :
  dict_get (impact_coords request) "lat" = Some lat ->
  dict_get (impact_coords request) "lng" = Some lng ->
  exists log report_text,
    generate_report rt request =
    (Reverse lat lng :: log, Ok {| report := report_text |}).
Proof.
  intros Hlat Hlng.
  destruct (generate_report_run rt request lat lng Hlat Hlng)
    as (log & country & _ & _ & Hr).
  destruct (get_llm_suggestions_total rt
              (impact_energy_joules (simulation_result request))
              (crater_diameter_meters (simulation_result request))
              (shockwave_radius_meters (simulation_result request))
              country) as (t2 & report_text & Hl).
  rewrite Hr, Hl. do 2 eexists. reflexivity.
Qed.

Lemma report_answers_with_coords_witness :
  exists log report_text,
    generate_report (sea_runtime (Some "AIza-key")) sample_request =
    (Reverse 30 (-40) :: log, Ok {| report := report_text |}).
Proof.
  apply (report_answers_with_coords (sea_runtime (Some "AIza-key")) sample_request
           30 (-40)); reflexivity.
Defined.

(** X21. A body whose impact_coords lacks lat raises KeyError 'lat'; one
    that has lat but lacks lng raises KeyError 'lng'.  In both cases no
    upstream is called and nothing is written. *)
Theorem report_missing_coordinate (rt : Runtime) (request : ReportRequest) :
  (dict_get (impact_coords request) "lat" = None ->
   generate_report rt request = ([], Raise (KeyError "lat"))) /\
  (forall lat,
     dict_get (impact_coords request) "lat" = Some lat ->
     dict_get (impact_coords request) "lng" = None ->
     generate_report rt request = ([], Raise (KeyError "lng"))).
Proof.
  unfold generate_report, dict_getitem. split.
  - intros Hlat. rewrite Hlat. reflexivity.
  - intros lat Hlat Hlng. rewrite Hlat, Hlng. reflexivity.
Qed.

Lemma report_missing_coordinate_witness :
  generate_report (land_runtime None)
    {| simulation_result := sample_result; impact_coords := [("lng", 31)] |}
    = ([], Raise (KeyError "lat")) /\
  generate_report (land_runtime None)
    {| simulation_result := sample_result; impact_coords := [("lat", 30); ("lon", 31)] |}
    = ([], Raise (KeyError "lng")).
Proof.
  split.
  - apply (report_missing_coordinate (land_runtime None)
             {| simulation_result := sample_result; impact_coords := [("lng", 31)] |}).
    reflexivity.
  - apply (proj2 (report_missing_coordinate (land_runtime None)
             {| simulation_result := sample_result;
                impact_coords := [("lat", 30); ("lon", 31)] |}) 30);
      reflexivity.
Defined.

(** X22. Of impact_coords the handler reads the entries lat and lng only:
    two requests that agree on the three fields it reads of the result and
    on these two entries have the same outcome and the same trace, whatever
    other keys their impact_coords hold. *)
Theorem report_reads_lat_lng_only (rt : Runtime) (r1 r2 : ReportRequest) :
  impact_energy_joules (simulation_result r1)
    = impact_energy_joules (simulation_result r2) ->
  crater_diameter_meters (simulation_result r1)
    = crater_diameter_meters (simulation_result r2) ->
  shockwave_radius_meters (simulation_result r1)
    = shockwave_radius_meters (simulation_result r2) ->
  dict_get (impact_coords r1) "lat" = dict_get (impact_coords r2) "lat" ->
  dict_get (impact_coords r1) "lng" = dict_get (impact_coords r2) "lng" ->
  generate_report rt r1 = generate_report rt r2.
Proof.
  intros He Hc Hs Hlat Hlng. unfold generate_report, dict_getitem.
  rewrite He, Hc, Hs, Hlat, Hlng. reflexivity.
Qed.

Lemma report_reads_lat_lng_only_witness :
  generate_report (land_runtime (Some "AIza-key")) sample_request =
  generate_report (land_runtime (Some "AIza-key"))
    {| simulation_result := sample_result_edited;
       impact_coords := [("alt", 0); ("lng", -40); ("lat", 30); ("lat", 99)] |}.
Proof.
  apply (report_reads_lat_lng_only (land_runtime (Some "AIza-key")) sample_request
           {| simulation_result := sample_result_edited;
              impact_coords := [("alt", 0); ("lng", -40); ("lat", 30); ("lat", 99)] |});
    reflexivity.
Defined.



(** X24. In the Configured state the handler, given both coordinates, calls
    the geocoder and then, once and last, the LLM upstream, with the prompt
    built from the three submitted figures and from the very value the
    resolver returned; the report is the upstream's text, or the error text
    when the upstream fails. *)
Theorem report_configured_run (rt : Runtime) (m : GenerativeModel)
    (request : ReportRequest) (lat lng : float) :
  model rt = Some m ->
  dict_get (impact_coords request) "lat" = Some lat ->
  dict_get (impact_coords request) "lng" = Some lng ->
  exists log country,
    get_impact_country rt lat lng = (Reverse lat lng :: log, Ok country) /\
    (forall p, ~ In (GenerateContent p) log) /\
    let prompt :=
      report_prompt rt
        (impact_energy_joules (simulation_result request))
        (crater_diameter_meters (simulation_result request))
        (shockwave_radius_meters (simulation_result request))
        country in
    generate_report rt request =
    (Reverse lat lng :: (log ++ [GenerateContent prompt])%list,
     Ok {| report := match llm_outcome rt m prompt with
                     | Ok report_text => report_text
                     | Raise e => gemini_error e
                     end |}).
Proof.
  intros Hm Hlat Hlng.
  destruct (generate_report_run rt request lat lng Hlat Hlng)
    as (log & country & Hc & Hlog & Hr).
  exists log, country. split; [exact Hc |]. split; [exact Hlog |].
  cbv zeta. rewrite Hr.
  rewrite (get_llm_suggestions_configured rt m) by exact Hm.
  reflexivity.
Qed.

Lemma report_configured_run_witness :
  exists log country,
    get_impact_country (land_runtime (Some "AIza-key")) 30 (-40)
      = (Reverse 30 (-40) :: log, Ok country) /\
    (forall p, ~ In (GenerateContent p) log) /\
    let prompt := report_prompt (land_runtime (Some "AIza-key")) 1 3 4 country in
    generate_report (land_runtime (Some "AIza-key")) sample_request =
    (Reverse 30 (-40) :: (log ++ [GenerateContent prompt])%list,
     Ok {| report :=
             match llm_outcome (land_runtime (Some "AIza-key"))
                     {| api_key := "AIza-key"; model_name := "models/gemini-2.5-flash" |}
                     prompt
             with
             | Ok report_text => report_text
             | Raise e => gemini_error e
             end |}).
Proof.
  apply (report_configured_run (land_runtime (Some "AIza-key"))
           {| api_key := "AIza-key"; model_name := "models/gemini-2.5-flash" |}
           sample_request 30 (-40)); reflexivity.
Defined.

(** ** The catalog proxy *)

Lemma raise_for_status_Ok (response : HttpResponse) :
  raise_for_status response = Ok tt <->
  (status_code response < 400 \/ 600 <= status_code response)%Z.
Proof.
  unfold raise_for_status.
  destruct (Z.leb_spec 400 (status_code response));
    destruct (Z.ltb_spec (status_code response) 500);
    destruct (Z.leb_spec 500 (status_code response));
    destruct (Z.ltb_spec (status_code response) 600);
    cbn; split; intros Hyp; try discriminate Hyp; try reflexivity; lia.
Qed.

(** X25. The catalog proxy returns a body exactly when the upstream, asked
    at the NEO browse URL with the single parameter api_key, answered with a
    status outside 400..599 and a body that decodes as JSON; the body is
    returned as decoded, unchanged. *)
Theorem get_asteroids_returns_iff (crt : CatalogRuntime) (body : PyVal) :
  get_asteroids crt = Ok body <->
  exists response,
    requests_get crt NEO_API_URL [("api_key", NASA_API_KEY crt)] = Ok response /\
    (status_code response < 400 \/ 600 <= status_code response)%Z /\
    json response = Ok body.
Proof.
  unfold get_asteroids. cbv zeta. split.
  - intros H. bind_inv H. bind_inv H. destruct x0.
    exists x. split; [exact Hx |]. split; [| exact H].
    apply raise_for_status_Ok. exact Hx0.
  - intros (response & Hget & Hstatus & Hjson).
    rewrite Hget. cbn [bind].
    apply raise_for_status_Ok in Hstatus. rewrite Hstatus. cbn [bind].
    exact Hjson.
Qed.

(** X26. The catalog proxy absorbs nothing: an exception of the upstream
    call, and a failure to decode the body of a good response, are raised
    to the caller as they are. *)
Theorem get_asteroids_propagates (crt : CatalogRuntime) (e : PyError) :
  (requests_get crt NEO_API_URL [("api_key", NASA_API_KEY crt)] = Raise e ->
   get_asteroids crt = Raise e) /\
  (forall response,
     requests_get crt NEO_API_URL [("api_key", NASA_API_KEY crt)] = Ok response ->
     (status_code response < 400 \/ 600 <= status_code response)%Z ->
     json response = Raise e ->
     get_asteroids crt = Raise e).
Proof.
  unfold get_asteroids. cbv zeta. split.
  - intros Hget. rewrite Hget. reflexivity.
  - intros response Hget Hstatus Hjson. rewrite Hget. cbn [bind].
    apply raise_for_status_Ok in Hstatus. rewrite Hstatus. cbn [bind].
    exact Hjson.
Qed.

Lemma get_asteroids_propagates_witness :
  get_asteroids
    {| NASA_API_KEY_env := None;
       requests_get := fun _ _ => Raise (UpstreamError "Connection refused") |}
    = Raise (UpstreamError "Connection refused") /\
  get_asteroids
    (catalog_runtime None
       {| status_code := 200; reason := "OK"; url := NEO_API_URL;
          json := Raise (UpstreamError "Connection refused") |})
    = Raise (UpstreamError "Connection refused").
Proof.
  split.
  - apply (get_asteroids_propagates
             {| NASA_API_KEY_env := None;
                requests_get := fun _ _ => Raise (UpstreamError "Connection refused") |}
             (UpstreamError "Connection refused")).
    reflexivity.
  - apply (proj2 (get_asteroids_propagates
             (catalog_runtime None
                {| status_code := 200; reason := "OK"; url := NEO_API_URL;
                   json := Raise (UpstreamError "Connection refused") |})
             (UpstreamError "Connection refused"))
             {| status_code := 200; reason := "OK"; url := NEO_API_URL;
                json := Raise (UpstreamError "Connection refused") |});
      [reflexivity | left; reflexivity | reflexivity].
Defined.

(** X27. An upstream answer with a status from 400 to 599 makes the catalog
    proxy raise the HTTP error of that status, a Client Error below 500 and
    a Server Error from 500 on; the body of the answer is dropped even if it
    decodes. *)
Theorem get_asteroids_error_status (crt : CatalogRuntime) (response : HttpResponse) :
  requests_get crt NEO_API_URL [("api_key", NASA_API_KEY crt)] = Ok response ->
  (400 <= status_code response < 600)%Z ->
  get_asteroids crt =
  Raise (http_error (if (status_code response <? 500)%Z
                     then "Client Error" else "Server Error") response).
Proof.
  intros Hget Hstatus. unfold get_asteroids. cbv zeta. rewrite Hget. cbn [bind].
  unfold raise_for_status.
  destruct (Z.leb_spec 400 (status_code response)); [| lia].
  destruct (Z.ltb_spec (status_code response) 500); cbn; [reflexivity |].
  destruct (Z.leb_spec 500 (status_code response)); [| lia].
  destruct (Z.ltb_spec (status_code response) 600); [| lia].
  reflexivity.
Qed.

Lemma get_asteroids_error_status_witness :
  get_asteroids (catalog_runtime None http_rate_limited) =
  Raise (UpstreamError
           "429 Client Error: Too Many Requests for url: https://api.nasa.gov/neo/rest/v1/neo/browse").
Proof.
  apply (get_asteroids_error_status (catalog_runtime None http_rate_limited)
           http_rate_limited).
  - reflexivity.
  - simpl. lia.
Defined.

Example get_asteroids_demo_key :
  get_asteroids
    {| NASA_API_KEY_env := None;
       requests_get := fun _ params =>
         Ok {| status_code := 200; reason := "OK"; url := NEO_API_URL;
               json := Ok (VDict (map (fun kv => (fst kv, VStr (snd kv))) params)) |} |}
  = Ok (VDict [("api_key", VStr "DEMO_KEY")]).
Proof. reflexivity. Qed.
